(** * IC50Prediction: the training harness

    A shallow embedding of [src/src/train.py] (the early-stopping monitor and
    the validation-aware trainer), [src/train.py] (the plain trainer) and
    [src/dataset.py] (record projection and batch collation), with the
    properties of these programs that the specification states. *)

From Stdlib Require Import ZArith List Bool Lia SpecFloat.
From stdpp Require Import gmap strings list.
Import ListNotations.

Open Scope Z_scope.

(** ** Python floats

    A Python [float] is an IEEE-754 binary64 number.  It is modelled by the
    standard library's [spec_float] at precision 53 and maximal exponent
    1024, whose comparison and arithmetic are executable. *)

Module PyFloat.

Definition prec : Z := 53.
Definition emax : Z := 1024.

Definition inf : spec_float := S754_infinity false.
Definition nan : spec_float := S754_nan.

(** [x < y] and [x > y] on floats: false as soon as one side is NaN. *)
Definition lt (x y : spec_float) : bool :=
  match SFcompare x y with Some Lt => true | _ => false end.

Definition gt (x y : spec_float) : bool :=
  match SFcompare x y with Some Gt => true | _ => false end.

Definition le (x y : spec_float) : bool :=
  match SFcompare x y with Some (Lt | Eq) => true | _ => false end.

Definition add (x y : spec_float) : spec_float := SFadd prec emax x y.

Definition div (x y : spec_float) : spec_float := SFdiv prec emax x y.

(** [float(n)] for an integer [n], rounded to nearest even. *)
Definition of_int (n : Z) : spec_float := binary_normalize prec emax n 0 false.

Definition is_nan (x : spec_float) : bool :=
  match x with S754_nan => true | _ => false end.

(** The literals used below, [m * 2^e] with a 53-bit [m]:
    0.0, 4.0 = 0x1.0p+2, 5.0 = 0x1.4p+2, 4.06 = 0x1.03d70a3d70a3dp+2,
    4.2 = 0x1.0cccccccccccdp+2, 0.05 = 0x1.999999999999ap-5. *)
Definition f0_0 : spec_float := S754_zero false.
Definition f4_0 : spec_float := S754_finite false 4503599627370496 (-50).
Definition f5_0 : spec_float := S754_finite false 5629499534213120 (-50).
Definition f4_06 : spec_float := S754_finite false 4571153621781053 (-50).
Definition f4_2 : spec_float := S754_finite false 4728779608739021 (-50).
Definition f0_05 : spec_float := S754_finite false 7205759403792794 (-57).
Definition f1_0 : spec_float := S754_finite false 4503599627370496 (-52).
Definition f2_0 : spec_float := S754_finite false 4503599627370496 (-51).
Definition f3_0 : spec_float := S754_finite false 6755399441055744 (-51).

(** The order [SFcompare] puts on the finite floats of one sign:
    the exponent first, then the mantissa. *)
Definition lex (e1 : Z) (m1 : positive) (e2 : Z) (m2 : positive) : comparison :=
  match e1 ?= e2 with
  | Lt => Lt
  | Gt => Gt
  | Eq => Pos.compare_cont Eq m1 m2
  end.

End PyFloat.

(** ** [class EarlyStopper] *)

Module EarlyStopper.

Record t : Type := mk {
  patience : Z;
  min_delta : spec_float;
  counter : Z;
  min_validation_loss : spec_float
}.

(** [__init__(self, patience=1, min_delta=0.0)] *)
Definition __init__ (patience : Z) (min_delta : spec_float) : t :=
  {| patience := patience;
     min_delta := min_delta;
     counter := 0;
     min_validation_loss := PyFloat.inf |}.

Definition set_improved (self : t) (validation_loss : spec_float) : t :=
  {| patience := patience self;
     min_delta := min_delta self;
     counter := 0;
     min_validation_loss := validation_loss |}.

Definition incr_counter (self : t) : t :=
  {| patience := patience self;
     min_delta := min_delta self;
     counter := counter self + 1;
     min_validation_loss := min_validation_loss self |}.

(** [early_stop(self, validation_loss)]: the object after the call and the
    returned boolean. *)
Definition early_stop (self : t) (validation_loss : spec_float) : t * bool :=
  if PyFloat.lt validation_loss (min_validation_loss self) then
    (set_improved self validation_loss, false)
  else if PyFloat.gt validation_loss
            (PyFloat.add (min_validation_loss self) (min_delta self)) then
    let self' := incr_counter self in
    if counter self' >=? patience self' then (self', true)
    else (self', false)
  else (self, false).

(** One call per value of a stream of losses: the object and the answer
    after each call. *)
Fixpoint trace (self : t) (losses : list spec_float) : list (t * bool) :=
  match losses with
  | [] => []
  | v :: rest =>
      let r := early_stop self v in
      r :: trace (fst r) rest
  end.

(** The object left by a stream of calls. *)
Fixpoint run (self : t) (losses : list spec_float) : t :=
  match losses with
  | [] => self
  | v :: rest => run (fst (early_stop self v)) rest
  end.

End EarlyStopper.

(** ** Python values, exceptions and results *)

(** The values a table cell or a record field can hold. *)
Inductive pyval : Type :=
  | VStr (s : string)
  | VInt (n : Z)
  | VFloat (x : spec_float).

(** The exceptions the modelled code can raise.  [KeyError] is what a
    missing column label raises (the specification's SchemaError class),
    [OSError] and [ValueError] are the tokenizer's loading and encoding
    failures (its TokenizationError class), [RuntimeError] is what torch
    raises for an unusable device (its DeviceError class) and for an
    integer that does not fit its tensor; [TypeError] and [OverflowError]
    are raised by [torch.tensor] on data it cannot store. *)
Inductive exn : Type :=
  | IndexError
  | KeyError
  | ZeroDivisionError
  | OSError
  | ValueError
  | RuntimeError
  | TypeError
  | OverflowError.

Inductive result (A : Type) : Type :=
  | Ok (a : A)
  | Raise (e : exn).

Arguments Ok {A} a.
Arguments Raise {A} e.

#[export] Instance result_bind : MBind result :=
  fun A B f m => match m with Ok a => f a | Raise e => Raise e end.

Definition is_ok {A : Type} (r : result A) : bool :=
  match r with Ok _ => true | Raise _ => false end.

(** [x / n] for a float [x] and an integer [n]. *)
Definition py_truediv (x : spec_float) (n : Z) : result spec_float :=
  if n =? 0 then Raise ZeroDivisionError
  else Ok (PyFloat.div x (PyFloat.of_int n)).

(** ** [src/dataset.py] *)

(** [class ProteinData(NamedTuple)]; the annotations are not enforced, a
    field holds whatever the cell held. *)
Record ProteinData : Type := mkProteinData {
  ligand : pyval;
  protein : pyval;
  ic50 : pyval
}.

(** A pandas [DataFrame] is the list of its rows, each row a [Series] from
    column label to value. *)
Module DataFrame.

Definition len (df : list (gmap string pyval)) : Z := Z.of_nat (length df).

(** [df.iloc[idx]] for an integer [idx]: a negative position counts from
    the end, a position outside [-len, len) raises [IndexError]. *)
Definition iloc (df : list (gmap string pyval)) (idx : Z)
  : result (gmap string pyval) :=
  let pos := if idx <? 0 then idx + len df else idx in
  if (pos <? 0) || (len df <=? pos) then Raise IndexError
  else match df !! Z.to_nat pos with
       | Some row => Ok row
       | None => Raise IndexError
       end.

(** [row[label]] *)
Definition getitem (row : gmap string pyval) (label : string) : result pyval :=
  match row !! label with
  | Some v => Ok v
  | None => Raise KeyError
  end.

End DataFrame.

Module ProteinSMILESDataset.

Record t : Type := mk { df : list (gmap string pyval) }.

Definition __len__ (self : t) : Z := DataFrame.len (df self).

Definition __getitem__ (self : t) (idx : Z) : result ProteinData :=
  row ← DataFrame.iloc (df self) idx;
  ligand ← DataFrame.getitem row "Ligand SMILES";
  protein ← DataFrame.getitem row "BindingDB Target Chain Sequence";
  target_ic50 ← DataFrame.getitem row "IC50 (nM)";
  Ok (mkProteinData ligand protein target_ic50).

End ProteinSMILESDataset.

(** *** Tensors and the tokenizer *)

Inductive Tensor : Type :=
  | Tensor1 (xs : list pyval)
  | Tensor2 (rows : list (list Z)).


(** *** [torch.tensor] on a list of Python values *)

Definition is_str (v : pyval) : bool :=
  match v with VStr _ => true | _ => false end.

Definition is_float (v : pyval) : bool :=
  match v with VFloat _ => true | _ => false end.

Definition in_int64 (v : pyval) : bool :=
  match v with
  | VInt n => (- 2 ^ 63 <=? n) && (n <? 2 ^ 63)
  | _ => false
  end.

(** A binary64 number stored in a float32 tensor: rounded to nearest even
    at precision 24 and maximal exponent 128. *)
Definition to_float32 (x : spec_float) : spec_float :=
  match x with
  | S754_finite s m e => binary_round 24 128 s m e
  | _ => x
  end.

(** One value stored in a float32 tensor: a float is rounded, an integer is
    first converted to a Python float, which fails when it is too large. *)
Definition store_float32 (v : pyval) : result pyval :=
  match v with
  | VFloat x => Ok (VFloat (to_float32 x))
  | VInt n =>
      match PyFloat.of_int n with
      | S754_infinity _ => Raise OverflowError
      | x => Ok (VFloat (to_float32 x))
      end
  | VStr _ => Raise TypeError
  end.

Fixpoint store_all_float32 (xs : list pyval) : result (list pyval) :=
  match xs with
  | [] => Ok []
  | v :: rest =>
      y ← store_float32 v;
      ys ← store_all_float32 rest;
      Ok (y :: ys)
  end.


(** [torch.tensor(xs)] for a list [xs] of Python values.  The sizes are
    taken along the first elements, so a non-empty string in front raises
    [ValueError] (too many dimensions); any other string raises [TypeError]
    when the element type is inferred.  A list holding a float becomes a
    tensor of the default type float32; a list of integers becomes an int64
    tensor, and an integer outside int64 raises [RuntimeError]. *)
Definition torch_tensor (xs : list pyval) : result Tensor :=
  match xs with
  | VStr (String _ _) :: _ => Raise ValueError
  | _ =>
      if existsb is_str xs then Raise TypeError
      else if existsb is_float xs then
        ys ← store_all_float32 xs; Ok (Tensor1 ys)
      else if forallb in_int64 xs then Ok (Tensor1 xs)
      else Raise RuntimeError
  end.

(** A loaded tokenizer: how it encodes one sequence pair (token id and
    segment id per position, already truncated), or rejects it, its padding
    ids, and the exception its batch call raises on a batch of no pair. *)
Record Tokenizer : Type := mkTokenizer {
  encode_pair : pyval -> pyval -> option (list (Z * Z));
  pad_token_id : Z;
  pad_token_type_id : Z;
  empty_batch_error : exn
}.

Definition pad_to {A : Type} (n : nat) (x : A) (l : list A) : list A :=
  l ++ repeat x (n - length l)%nat.

Definition longest {A : Type} (ls : list (list A)) : nat :=
  foldr Nat.max 0%nat (map length ls).

(** Modelled from the spec: the tokenizer collaborator called on a batch
    ([tokenizer(text, text_pair, padding=True, truncation=True,
    return_tensors="pt")]) is not part of the repository.  Section 4.2 and
    section 6: the pairs are encoded jointly, every example is padded to the
    longest one of the batch with the reserved pad token id, padded positions
    are excluded in [attention_mask], and the result holds the numeric
    tensors [input_ids], [token_type_ids] and [attention_mask].  The spec
    gives the call for a batch of at least one pair; on a batch of no pair
    the tokenizers raise, each its own exception. *)
Definition tokenizer_call (tk : Tokenizer) (text text_pair : list pyval)
  : result (gmap string Tensor) :=
  match zip text text_pair with
  | [] => Raise (empty_batch_error tk)
  | pairs =>
  match mapM (fun p => encode_pair tk (fst p) (snd p)) pairs with
  | None => Raise ValueError
  | Some encs =>
      let n := longest encs in
      Ok (<["attention_mask" :=
              Tensor2 (map (fun e => pad_to n 0 (map (fun _ => 1) e)) encs)]>
         (<["token_type_ids" :=
              Tensor2 (map (fun e => pad_to n (pad_token_type_id tk) (map snd e)) encs)]>
         (<["input_ids" :=
              Tensor2 (map (fun e => pad_to n (pad_token_id tk) (map fst e)) encs)]>
          ∅)))
  end
  end.

Module TransformerCollate.

Record t : Type := mk { tokenizer : Tokenizer }.

(** [__init__(self, path)]; [from_pretrained] is
    [AutoTokenizer.from_pretrained], [None] when the resource at [path]
    cannot be loaded. *)
Definition __init__ (from_pretrained : string -> option Tokenizer)
    (path : string) : result t :=
  match from_pretrained path with
  | Some tk => Ok (mk tk)
  | None => Raise OSError
  end.

Definition __call__ (self : t) (batches : list ProteinData)
  : result (gmap string Tensor) :=
  let ligands := map ligand batches in
  let proteins := map protein batches in
  let target_ic50 := map ic50 batches in
  encodings ← tokenizer_call (tokenizer self) ligands proteins;
  labels ← torch_tensor target_ic50;
  Ok (<["labels" := labels]> encodings).

End TransformerCollate.

(** ** The trainers *)

Inductive torch_device : Type := Cpu | Cuda.

(** The torch objects the trainers are given and do not own.  [Nets] is the
    state of the model, the criterion and the optimizer together (they are
    mutated in place), [Batch] is what a loader yields.  The bodies of the
    two batch loops are taken to return: a run in which a forward pass
    raises is not represented. *)
Class Collaborators (Nets Batch : Type) : Type := {
  (** [torch.cuda.is_available()] *)
  cuda_is_available : bool;
  (** [self.model.to(device)] and [self.criterion.to(device)] *)
  model_to : Nets -> torch_device -> result Nets;
  criterion_to : Nets -> torch_device -> result Nets;
  (** [self.model.train()] and [self.model.eval()] *)
  model_train : Nets -> Nets;
  model_eval : Nets -> Nets;
  (** The body of the batch loop: the batch moved to the device,
      [zero_grad], forward pass, criterion, [backward], [step]; the new
      state and [loss.item()]. *)
  train_batch : Nets -> torch_device -> Batch -> Nets * spec_float;
  (** The body of the validation loop under [no_grad]: forward pass and
      criterion; [val_loss.item()]. *)
  val_batch : Nets -> torch_device -> Batch -> spec_float;
  (** Python's [round(x, 4)] *)
  round4 : spec_float -> spec_float
}.

(** [for batch in loader: ...; total_loss += loss.item()] *)
Fixpoint train_batches `{Collaborators Nets Batch} (d : torch_device)
    (loader : list Batch) (nets : Nets) (total_loss : spec_float)
  : Nets * spec_float :=
  match loader with
  | [] => (nets, total_loss)
  | batch :: rest =>
      let '(nets', loss) := train_batch nets d batch in
      train_batches d rest nets' (PyFloat.add total_loss loss)
  end.

(** [for val_batch in loader: ...; val_total_loss += val_loss.item()] *)
Fixpoint val_batches `{Collaborators Nets Batch} (d : torch_device)
    (loader : list Batch) (nets : Nets) (val_total_loss : spec_float)
  : spec_float :=
  match loader with
  | [] => val_total_loss
  | batch :: rest =>
      val_batches d rest nets (PyFloat.add val_total_loss (val_batch nets d batch))
  end.

(** [len(loader)]: the number of batches. *)
Definition loader_len {Batch : Type} (loader : list Batch) : Z :=
  Z.of_nat (length loader).

(** The truth value of [self.val_dataloader]: [None] is false, and a
    [DataLoader] defines [__len__] and no [__bool__], so a loader of no
    batch is false too. *)
Definition truthy {Batch : Type} (loader : option (list Batch)) : bool :=
  match loader with
  | None => false
  | Some l => negb (loader_len l =? 0)
  end.

(** [avg_episode_losses = {"Train": [...], "Validation": [...]}] *)
Record episode_losses : Type := mkLosses {
  Train : list spec_float;
  Validation : list spec_float
}.

(** *** [src/src/train.py]: [class IC50BertTrainer] *)

Module IC50BertTrainer.

Section Trainer.

Context {Nets Batch : Type} `{Collaborators Nets Batch}.

Record t : Type := mk {
  (** [self.model], [self.criterion], [self.optimizer] *)
  nets : Nets;
  dataloader : list Batch;
  val_dataloader : option (list Batch);
  num_epochs : Z;
  device : torch_device;
  early_stopper : EarlyStopper.t
}.

(** [__init__]: attribute assignments only. *)
Definition __init__ (model_criterion_optimizer : Nets)
    (train_dataloader : list Batch) (val_dataloader : option (list Batch))
    (num_epochs : Z) (device : torch_device) : result t :=
  Ok {| nets := model_criterion_optimizer;
        dataloader := train_dataloader;
        val_dataloader := val_dataloader;
        num_epochs := num_epochs;
        device := device;
        early_stopper := EarlyStopper.__init__ 10 PyFloat.f0_05 |}.

(** What a call of [train] leaves: the returned dict, the object after
    the call, and (for the statements below, not a value of the program)
    the arguments of the [early_stop] calls in order. *)
Record run : Type := mkRun {
  avg_episode_losses : episode_losses;
  self_after : t;
  fed : list spec_float
}.

Definition with_state (self : t) (n : Nets) (es : EarlyStopper.t) : t :=
  {| nets := n;
     dataloader := dataloader self;
     val_dataloader := val_dataloader self;
     num_epochs := num_epochs self;
     device := device self;
     early_stopper := es |}.

(** One iteration of [for epoch in range(self.num_epochs)] up to the
    [early_stop] call: the state of the torch objects, the two lists and
    [stop_loss]. *)
Definition epoch (self : t) (avg : episode_losses)
  : result (Nets * episode_losses * spec_float) :=
  let nets0 := model_train (nets self) in
  let '(nets1, total_loss) :=
    train_batches (device self) (dataloader self) nets0 PyFloat.f0_0 in
  train_episode_loss ← py_truediv total_loss (loader_len (dataloader self));
  let stop_loss := train_episode_loss in
  let avg1 := mkLosses (Train avg ++ [round4 train_episode_loss]) (Validation avg) in
  if truthy (val_dataloader self) then
    let val_loader := default [] (val_dataloader self) in
    let nets2 := model_eval nets1 in
    let val_total_loss := val_batches (device self) val_loader nets2 PyFloat.f0_0 in
    val_episode_loss ← py_truediv val_total_loss (loader_len val_loader);
    let stop_loss := val_episode_loss in
    let avg2 := mkLosses (Train avg1) (Validation avg1 ++ [round4 val_episode_loss]) in
    Ok (nets2, avg2, stop_loss)
  else Ok (nets1, avg1, stop_loss).

(** The epoch loop with [remaining] iterations to go. *)
Fixpoint epochs (remaining : nat) (self : t) (avg : episode_losses)
    (log : list spec_float) : result run :=
  match remaining with
  | O => Ok (mkRun avg self log)
  | S remaining' =>
      '(nets', avg', stop_loss) ← epoch self avg;
      let '(es', stop) := EarlyStopper.early_stop (early_stopper self) stop_loss in
      let self' := with_state self nets' es' in
      if stop then Ok (mkRun avg' self' (log ++ [stop_loss]))
      else epochs remaining' self' avg' (log ++ [stop_loss])
  end.

Definition train (self : t) : result run :=
  nets1 ← model_to (nets self) (device self);
  nets2 ← criterion_to nets1 (device self);
  epochs (Z.to_nat (num_epochs self))
    (with_state self nets2 (early_stopper self))
    (mkLosses [] []) [].

(** *** What an uninterrupted run computes

    The quantities the statements about [train] are phrased with: the
    per-batch losses of a pass, their mean, and the state of the torch
    objects epoch after epoch when nothing stops the loop. *)

Fixpoint train_losses (d : torch_device) (loader : list Batch) (n : Nets)
  : list spec_float :=
  match loader with
  | [] => []
  | batch :: rest =>
      let '(n', loss) := train_batch n d batch in
      loss :: train_losses d rest n'
  end.

Fixpoint nets_after_batches (d : torch_device) (loader : list Batch) (n : Nets) : Nets :=
  match loader with
  | [] => n
  | batch :: rest => nets_after_batches d rest (fst (train_batch n d batch))
  end.

(** The accumulated loss and the mean of a list of per-batch losses. *)
Definition total (xs : list spec_float) : spec_float :=
  fold_left PyFloat.add xs PyFloat.f0_0.

Definition mean (xs : list spec_float) : spec_float :=
  PyFloat.div (total xs) (PyFloat.of_int (Z.of_nat (length xs))).

Definition after_training (self : t) (start : Nets) : Nets :=
  nets_after_batches (device self) (dataloader self) (model_train start).

Definition train_loss_of (self : t) (start : Nets) : spec_float :=
  mean (train_losses (device self) (dataloader self) (model_train start)).

Definition val_losses (self : t) (val_loader : list Batch) (start : Nets)
  : list spec_float :=
  map (val_batch (model_eval (after_training self start)) (device self)) val_loader.

Definition val_loss_of (self : t) (start : Nets) : spec_float :=
  mean (val_losses self (default [] (val_dataloader self)) start).

Definition stop_loss_of (self : t) (start : Nets) : spec_float :=
  if truthy (val_dataloader self) then val_loss_of self start
  else train_loss_of self start.

Definition after_epoch (self : t) (start : Nets) : Nets :=
  if truthy (val_dataloader self) then model_eval (after_training self start)
  else after_training self start.

(** The state at the start of epoch [k] (counted from 0). *)
Definition start_of (self : t) (nets0 : Nets) (k : nat) : Nets :=
  Nat.iter k (after_epoch self) nets0.

(** The first [n] losses the monitor would be given, and its answers. *)
Definition stop_stream (self : t) (nets0 : Nets) (n : nat) : list spec_float :=
  map (fun k => stop_loss_of self (start_of self nets0 k)) (seq 0 n).

Definition answers (self : t) (nets0 : Nets) (n : nat) : list bool :=
  map snd (EarlyStopper.trace (early_stopper self) (stop_stream self nets0 n)).

(** The number of epochs a loop of [n] iterations completes, given the
    monitor's answers. *)
Fixpoint completed (stops : list bool) : nat :=
  match stops with
  | [] => O
  | true :: _ => 1%nat
  | false :: rest => S (completed rest)
  end.

(** What [k] completed epochs leave, starting from the state [nets0] with
    the lists [avg] and the log [log]: one training entry per epoch, one
    validation entry per epoch when the validation loader is true, the torch
    objects after [k] whole epochs, the monitor after [k] calls. *)
Definition recorded (self : t) (nets0 : Nets) (avg : episode_losses)
    (log : list spec_float) (k : nat) : run :=
  mkRun
    (mkLosses
       (Train avg ++
          map (fun i => round4 (train_loss_of self (start_of self nets0 i))) (seq 0 k))
       (Validation avg ++
          (if truthy (val_dataloader self)
           then map (fun i => round4 (val_loss_of self (start_of self nets0 i))) (seq 0 k)
           else [])))
    (with_state self (start_of self nets0 k)
       (EarlyStopper.run (early_stopper self) (stop_stream self nets0 k)))
    (log ++ stop_stream self nets0 k).

End Trainer.

End IC50BertTrainer.

(** *** [src/train.py]: the plain [class IC50BertTrainer] *)

Module PlainTrainer.

Section Trainer.

Context {Nets Batch : Type} `{Collaborators Nets Batch}.

Record t : Type := mk {
  nets : Nets;
  dataloader : list Batch;
  num_epochs : Z
}.

Definition __init__ (model_criterion_optimizer : Nets)
    (dataloader : list Batch) (num_epochs : Z) : result t :=
  Ok {| nets := model_criterion_optimizer;
        dataloader := dataloader;
        num_epochs := num_epochs |}.

Fixpoint epochs (remaining : nat) (d : torch_device) (self : t)
    (avg_episode_losses : list spec_float) : result (list spec_float * t) :=
  match remaining with
  | O => Ok (avg_episode_losses, self)
  | S remaining' =>
      let nets0 := model_train (nets self) in
      let '(nets1, total_loss) :=
        train_batches d (dataloader self) nets0 PyFloat.f0_0 in
      average_loss ← py_truediv total_loss (loader_len (dataloader self));
      epochs remaining' d
        {| nets := nets1; dataloader := dataloader self;
           num_epochs := num_epochs self |}
        (avg_episode_losses ++ [round4 average_loss])
  end.

(** The device the plain [train] picks. *)
Definition pick_device : torch_device :=
  if cuda_is_available then Cuda else Cpu.

Definition train (self : t) : result (list spec_float * t) :=
  let device := pick_device in
  nets1 ← model_to (nets self) device;
  nets2 ← criterion_to nets1 device;
  epochs (Z.to_nat (num_epochs self)) device
    {| nets := nets2; dataloader := dataloader self;
       num_epochs := num_epochs self |} [].

End Trainer.

End PlainTrainer.

(** *** What the plain trainer computes

    One epoch of the plain trainer from the state [start]: the state it
    leaves and its mean loss. *)

Section PlainRun.

Context {Nets Batch : Type} `{Collaborators Nets Batch}.

Definition plain_after_epoch (d : torch_device) (loader : list Batch)
    (start : Nets) : Nets :=
  IC50BertTrainer.nets_after_batches d loader (model_train start).

Definition plain_loss_of (d : torch_device) (loader : list Batch)
    (start : Nets) : spec_float :=
  IC50BertTrainer.mean (IC50BertTrainer.train_losses d loader (model_train start)).

End PlainRun.

(** *** [IC50BertTrainer.get_from_batch] *)

(** [t.type(torch.BoolTensor)]: an entry becomes true (1) when it is not
    zero, false (0) when it is. *)
Definition to_bool (t : Tensor) : Tensor :=
  match t with
  | Tensor2 rows => Tensor2 (map (map (fun x => if x =? 0 then 0 else 1)) rows)
  | Tensor1 xs =>
      Tensor1 (map (fun x =>
                      match x with
                      | VInt n => VInt (if n =? 0 then 0 else 1)
                      | VFloat (S754_zero _) => VInt 0
                      | VFloat _ => VInt 1
                      | VStr s => VStr s
                      end) xs)
  end.

(** [batch[key]] on the dict a loader yields. *)
Definition batch_getitem (batch : gmap string Tensor) (key : string)
  : result Tensor :=
  match batch !! key with
  | Some t => Ok t
  | None => Raise KeyError
  end.

(** [get_from_batch(self, batch)]; [tensor_to] is [Tensor.to(device)]. *)
Definition get_from_batch (tensor_to : Tensor -> torch_device -> result Tensor)
    (device : torch_device) (batch : gmap string Tensor)
  : result (Tensor * Tensor * Tensor * Tensor) :=
  x ← batch_getitem batch "input_ids";
  input_ids ← tensor_to x device;
  x ← batch_getitem batch "token_type_ids";
  token_type_ids ← tensor_to x device;
  x ← batch_getitem batch "attention_mask";
  attention_mask ← tensor_to (to_bool x) device;
  x ← batch_getitem batch "labels";
  labels ← tensor_to x device;
  Ok (input_ids, token_type_ids, attention_mask, labels).

(** ** Small instances

    Concrete collaborators and data on which the definitions above can be
    evaluated. *)

Module Examples.

(** A character-level tokenizer: [CLS] ligand [SEP] protein [SEP], segment 0
    up to the first separator and 1 after it; anything but two strings is
    rejected. *)
Definition char_ids (seg : Z) (s : string) : list (Z * Z) :=
  map (fun c => (Z.of_nat (Ascii.nat_of_ascii c) + 1000, seg)) (String.list_ascii_of_string s).

Definition char_tokenizer : Tokenizer :=
  {| encode_pair := fun a b =>
       match a, b with
       | VStr x, VStr y =>
           Some ((101, 0) :: char_ids 0 x ++ [(102, 0)] ++ char_ids 1 y ++ [(102, 1)])
       | _, _ => None
       end;
     pad_token_id := 0;
     pad_token_type_id := 0;
     empty_batch_error := IndexError |}.

(** 0.1 = 0x1.999999999999ap-4, and the float32 nearest to it,
    0x1.99999ap-4. *)
Definition f0_1 : spec_float := S754_finite false 7205759403792794 (-56).
Definition f0_1_as_float32 : spec_float := S754_finite false 13421773 (-27).

(** The only checkpoint that can be loaded. *)
Definition checkpoints (path : string) : option Tokenizer :=
  if String.eqb path "Chem_Tokenizer_3" then Some char_tokenizer else None.

Definition row (l p : string) (c : Z) : gmap string pyval :=
  <["Ligand SMILES" := VStr l]>
  (<["BindingDB Target Chain Sequence" := VStr p]>
  (<["IC50 (nM)" := VInt c]> ∅)).

Definition table : list (gmap string pyval) :=
  [row "CCO" "MKV" 10; row "C" "MK" 20].

(** Torch objects reduced to a counter of optimizer steps; a training batch
    [b] yields the loss [b + steps] (training makes things worse), a
    validation batch [b] the loss [b]; [cuda] tells whether the accelerator
    is there. *)
Definition stub (cuda : bool) : Collaborators nat spec_float :=
  {| cuda_is_available := cuda;
     model_to := fun n d =>
       match d with
       | Cuda => if cuda then Ok n else Raise RuntimeError
       | Cpu => Ok n
       end;
     criterion_to := fun n d =>
       match d with
       | Cuda => if cuda then Ok n else Raise RuntimeError
       | Cpu => Ok n
       end;
     model_train := fun n => n;
     model_eval := fun n => n;
     train_batch := fun n _ b => (S n, PyFloat.add b (PyFloat.of_int (Z.of_nat n)));
     val_batch := fun _ _ b => b;
     round4 := fun x => x |}.

(** The trainer [IC50BertTrainer(model, train_loader, val_loader, n, ...,
    device)] builds: the monitor has patience 10 and tolerance 0.05. *)
Definition trainer (train_loader : list spec_float)
    (val_loader : option (list spec_float)) (n : Z) (d : torch_device)
  : @IC50BertTrainer.t nat spec_float :=
  IC50BertTrainer.mk 0%nat train_loader val_loader n d
    (EarlyStopper.__init__ 10 PyFloat.f0_05).

Definition plain_trainer (loader : list spec_float) (n : Z)
  : @PlainTrainer.t nat spec_float :=
  PlainTrainer.mk 0%nat loader n.

End Examples.


(** * Properties *)

(** ** Float comparison *)

Section FloatOrder.

Import PyFloat.

Lemma lt_nan_l (x : spec_float) : lt nan x = false.
Proof. reflexivity. Qed.

Lemma gt_nan_l (x : spec_float) : gt nan x = false.
Proof. reflexivity. Qed.

Lemma lt_not_nan (x y : spec_float) : lt x y = true -> is_nan x = false.
Proof. destruct x; [reflexivity | reflexivity | discriminate | reflexivity]. Qed.

Lemma lt_inf (x : spec_float) :
  is_nan x = false -> x <> inf -> lt x inf = true.
Proof.
  unfold inf. destruct x as [s | s | | s m e]; intros Hn Hi; simpl in *;
    try discriminate; try reflexivity.
  - destruct s; [reflexivity | congruence].
Qed.

Lemma gt_inf_r (x : spec_float) : gt x inf = false.
Proof. destruct x as [s | s | | s m e]; try reflexivity. destruct s; reflexivity. Qed.

Lemma add_inf_l (y : spec_float) :
  add inf y = inf \/ add inf y = nan.
Proof.
  destruct y as [s | s | | s m e]; simpl; auto. destruct s; auto.
Qed.

Lemma lt_le (x y : spec_float) : lt x y = true -> le x y = true.
Proof. unfold lt, le. destruct (SFcompare x y) as [[ | | ] | ]; congruence. Qed.

Lemma lex_spec e1 m1 e2 m2 :
  match lex e1 m1 e2 m2 with
  | Lt => e1 < e2 \/ (e1 = e2 /\ (m1 < m2)%positive)
  | Eq => e1 = e2 /\ m1 = m2
  | Gt => e2 < e1 \/ (e1 = e2 /\ (m2 < m1)%positive)
  end.
Proof.
  unfold lex. destruct (Z.compare_spec e1 e2) as [He | He | He]; auto.
  change (Pos.compare_cont Eq m1 m2) with (Pos.compare m1 m2).
  destruct (Pos.compare_spec m1 m2); auto.
Qed.

Lemma lex_le_trans e1 m1 e2 m2 e3 m3 :
  lex e1 m1 e2 m2 <> Gt -> lex e2 m2 e3 m3 <> Gt -> lex e1 m1 e3 m3 <> Gt.
Proof.
  intros H12 H23 H13.
  pose proof (lex_spec e1 m1 e2 m2) as S12.
  pose proof (lex_spec e2 m2 e3 m3) as S23.
  pose proof (lex_spec e1 m1 e3 m3) as S13.
  rewrite H13 in S13.
  destruct (lex e1 m1 e2 m2); [ | | congruence];
    destruct (lex e2 m2 e3 m3); try congruence; lia.
Qed.

Lemma lex_refl e m : lex e m e m = Eq.
Proof. unfold lex. rewrite Z.compare_refl. apply Pos.compare_refl. Qed.

Lemma le_finite s1 m1 e1 s2 m2 e2 :
  le (S754_finite s1 m1 e1) (S754_finite s2 m2 e2) =
  match s1, s2 with
  | true, false => true
  | false, true => false
  | false, false => match lex e1 m1 e2 m2 with Gt => false | _ => true end
  | true, true => match lex e2 m2 e1 m1 with Gt => false | _ => true end
  end.
Proof.
  unfold le. simpl.
  destruct s1, s2; try reflexivity.
  - pose proof (lex_spec e1 m1 e2 m2) as A. pose proof (lex_spec e2 m2 e1 m1) as B.
    unfold lex in A. fold (lex e2 m2 e1 m1).
    destruct (e1 ?= e2); [ | destruct (lex e2 m2 e1 m1); simpl; try reflexivity; lia ..].
    destruct (Pos.compare_cont Eq m1 m2), (lex e2 m2 e1 m1); simpl; try reflexivity; lia.
Qed.

Lemma le_refl (x : spec_float) : is_nan x = false -> le x x = true.
Proof.
  destruct x as [s | s | | s m e]; intros Hn; try discriminate.
  - reflexivity.
  - destruct s; reflexivity.
  - rewrite le_finite, lex_refl. destruct s; reflexivity.
Qed.

Lemma le_trans (x y z : spec_float) :
  le x y = true -> le y z = true -> le x z = true.
Proof.
  destruct x as [sx | sx | | sx mx ex]; destruct y as [sy | sy | | sy my ey];
    destruct z as [sz | sz | | sz mz ez];
    try discriminate; try reflexivity;
    rewrite ?le_finite;
    try (destruct sx; try discriminate; try reflexivity);
    try (destruct sy; try discriminate; try reflexivity);
    try (destruct sz; try discriminate; try reflexivity).
  - intros A B.
    pose proof (lex_le_trans ez mz ey my ex mx) as T.
    destruct (lex ey my ex mx), (lex ez mz ey my), (lex ez mz ex mx);
      try reflexivity; try discriminate; exfalso; apply T; congruence.
  - intros A B.
    pose proof (lex_le_trans ex mx ey my ez mz) as T.
    destruct (lex ex mx ey my), (lex ey my ez mz), (lex ex mx ez mz);
      try reflexivity; try discriminate; exfalso; apply T; congruence.
Qed.

End FloatOrder.

(** ** The early-stopping monitor *)

Section EarlyStopperFacts.

Import EarlyStopper.

Lemma early_stop_config (s : t) (v : spec_float) :
  patience (fst (early_stop s v)) = patience s /\
  min_delta (fst (early_stop s v)) = min_delta s.
Proof.
  unfold early_stop.
  destruct (PyFloat.lt v (min_validation_loss s)); [split; reflexivity | ].
  destruct (PyFloat.gt v _); [ | split; reflexivity].
  simpl. destruct (counter s + 1 >=? patience s); split; reflexivity.
Qed.

Lemma early_stop_best_not_nan (s : t) (v : spec_float) :
  PyFloat.is_nan (min_validation_loss s) = false ->
  PyFloat.is_nan (min_validation_loss (fst (early_stop s v))) = false.
Proof.
  intros Hs. unfold early_stop.
  destruct (PyFloat.lt v (min_validation_loss s)) eqn:Hlt.
  - simpl. eapply lt_not_nan, Hlt.
  - destruct (PyFloat.gt v _); [ | exact Hs].
    simpl. destruct (counter s + 1 >=? patience s); exact Hs.
Qed.

Lemma early_stop_best_le (s : t) (v : spec_float) :
  PyFloat.is_nan (min_validation_loss s) = false ->
  PyFloat.le (min_validation_loss (fst (early_stop s v))) (min_validation_loss s) = true.
Proof.
  intros Hs. unfold early_stop.
  destruct (PyFloat.lt v (min_validation_loss s)) eqn:Hlt.
  - simpl. apply lt_le, Hlt.
  - destruct (PyFloat.gt v _); [ | apply le_refl, Hs].
    simpl. destruct (counter s + 1 >=? patience s); apply le_refl, Hs.
Qed.

Lemma run_best_not_nan (losses : list spec_float) (s : t) :
  PyFloat.is_nan (min_validation_loss s) = false ->
  PyFloat.is_nan (min_validation_loss (run s losses)) = false.
Proof.
  revert s. induction losses as [ | v rest IH]; intros s Hs; simpl.
  - exact Hs.
  - apply IH, early_stop_best_not_nan, Hs.
Qed.

Lemma run_best_le (losses : list spec_float) (s : t) :
  PyFloat.is_nan (min_validation_loss s) = false ->
  PyFloat.le (min_validation_loss (run s losses)) (min_validation_loss s) = true.
Proof.
  revert s. induction losses as [ | v rest IH]; intros s Hs; simpl.
  - apply le_refl, Hs.
  - eapply le_trans.
    + apply IH, early_stop_best_not_nan, Hs.
    + apply early_stop_best_le, Hs.
Qed.

Lemma run_app (xs ys : list spec_float) (s : t) :
  run s (xs ++ ys) = run (run s xs) ys.
Proof.
  revert s. induction xs as [ | x xs IH]; intros s; simpl; [reflexivity | apply IH].
Qed.

Lemma spec_float_eq_inf (v : spec_float) : v = PyFloat.inf \/ v <> PyFloat.inf.
Proof.
  unfold PyFloat.inf. destruct v as [? | [ | ] | | ? ? ?];
    try (right; discriminate). left; reflexivity.
Qed.

Lemma early_stop_nan (s : t) : early_stop s PyFloat.nan = (s, false).
Proof. reflexivity. Qed.

(** C1. The transition of the monitor on a loss [v]: an improvement
    ([v < best_loss]) stores [v] and resets the counter without a stop; else
    a loss above [best_loss + min_delta] increments the counter and stops
    exactly when the incremented counter has reached [patience]; else nothing
    changes and there is no stop.  With [min_delta = 0.0] and [patience = 2]
    the losses 5.0, 4.0, 4.06, 4.2 leave the counter at 0, 0, 1, 2 and the
    stop comes with the fourth. *)
Theorem early_stop_transition (s : t) (v : spec_float) :
  (PyFloat.lt v (min_validation_loss s) = true ->
     early_stop s v = (mk (patience s) (min_delta s) 0 v, false)) /\
  (PyFloat.lt v (min_validation_loss s) = false ->
   PyFloat.gt v (PyFloat.add (min_validation_loss s) (min_delta s)) = true ->
     fst (early_stop s v)
       = mk (patience s) (min_delta s) (counter s + 1) (min_validation_loss s) /\
     (snd (early_stop s v) = true <-> patience s <= counter s + 1)) /\
  (PyFloat.lt v (min_validation_loss s) = false ->
   PyFloat.gt v (PyFloat.add (min_validation_loss s) (min_delta s)) = false ->
     early_stop s v = (s, false)) /\
  map (fun r => (counter (fst r), snd r))
    (trace (__init__ 2 PyFloat.f0_0)
       [PyFloat.f5_0; PyFloat.f4_0; PyFloat.f4_06; PyFloat.f4_2])
  = [(0, false); (0, false); (1, false); (2, true)].
Proof.
  unfold early_stop. split; [ | split; [ | split]].
  - intros ->. reflexivity.
  - intros -> ->. cbn [incr_counter counter patience].
    destruct (counter s + 1 >=? patience s) eqn:E; cbn [fst snd].
    + split; [reflexivity | ]. split; [lia | reflexivity].
    + split; [reflexivity | ]. split; [discriminate | lia].
  - intros -> ->. reflexivity.
  - reflexivity.
Qed.

Lemma early_stop_transition_witness :
  early_stop (mk 2 PyFloat.f0_0 0 PyFloat.f5_0) PyFloat.f4_0
    = (mk 2 PyFloat.f0_0 0 PyFloat.f4_0, false) /\
  (fst (early_stop (mk 2 PyFloat.f0_0 1 PyFloat.f4_0) PyFloat.f4_2)
     = mk 2 PyFloat.f0_0 2 PyFloat.f4_0 /\
   (snd (early_stop (mk 2 PyFloat.f0_0 1 PyFloat.f4_0) PyFloat.f4_2) = true
    <-> 2 <= 1 + 1)) /\
  early_stop (mk 2 PyFloat.f0_05 1 PyFloat.f4_0) PyFloat.f4_0
    = (mk 2 PyFloat.f0_05 1 PyFloat.f4_0, false).
Proof.
  split; [ | split].
  - apply (proj1 (early_stop_transition (mk 2 PyFloat.f0_0 0 PyFloat.f5_0) PyFloat.f4_0)).
    reflexivity.
  - apply (proj1 (proj2
      (early_stop_transition (mk 2 PyFloat.f0_0 1 PyFloat.f4_0) PyFloat.f4_2)));
      reflexivity.
  - apply (proj1 (proj2 (proj2
      (early_stop_transition (mk 2 PyFloat.f0_05 1 PyFloat.f4_0) PyFloat.f4_0))));
      reflexivity.
Defined.

(** C8, as the code has it.  On the first value after construction the
    monitor never answers stop, whatever the configuration; and when that
    value is not NaN it becomes [min_validation_loss] with the counter at 0. *)
Theorem first_value_never_stops (p : Z) (d v : spec_float) :
  snd (early_stop (__init__ p d) v) = false /\
  (PyFloat.is_nan v = false -> fst (early_stop (__init__ p d) v) = mk p d 0 v).
Proof.
  unfold early_stop, __init__; cbn [min_validation_loss min_delta counter patience].
  destruct (PyFloat.lt v PyFloat.inf) eqn:Hlt.
  - split; reflexivity.
  - assert (Hgt : PyFloat.gt v (PyFloat.add PyFloat.inf d) = false).
    { destruct (add_inf_l d) as [-> | ->].
      - apply gt_inf_r.
      - destruct v as [? | [ | ] | | ? ? ?]; reflexivity. }
    rewrite Hgt. split; [reflexivity | ].
    intros Hn. simpl.
    destruct (spec_float_eq_inf v) as [-> | Hne]; [reflexivity | ].
    rewrite (lt_inf v Hn Hne) in Hlt. discriminate.
Qed.

Lemma first_value_never_stops_witness :
  fst (early_stop (__init__ 1 PyFloat.f0_0) PyFloat.f5_0) = mk 1 PyFloat.f0_0 0 PyFloat.f5_0.
Proof.
  apply (proj2 (first_value_never_stops 1 PyFloat.f0_0 PyFloat.f5_0)). reflexivity.
Defined.

(** C8 as the specification states it fails: a first loss that is NaN is no
    improvement, [min_validation_loss] stays at +infinity. *)
Lemma first_value_nan_does_not_improve :
  ~ (forall (p : Z) (d v : spec_float),
       snd (early_stop (__init__ p d) v) = false /\
       min_validation_loss (fst (early_stop (__init__ p d) v)) = v /\
       counter (fst (early_stop (__init__ p d) v)) = 0).
Proof.
  intros C. destruct (C 1 PyFloat.f0_0 PyFloat.nan) as (_ & Hbest & _).
  discriminate Hbest.
Qed.

(** C9. Along any stream of calls on a constructed monitor
    [min_validation_loss] never increases; a call whose argument is below
    [min_validation_loss] leaves the counter at 0; and a call that answers
    stop leaves a counter that has reached [patience]. *)
Theorem early_stopper_invariants (p : Z) (d : spec_float)
    (before after : list spec_float) (s : t) (v : spec_float) :
  PyFloat.le (min_validation_loss (run (__init__ p d) (before ++ after)))
             (min_validation_loss (run (__init__ p d) before)) = true /\
  (PyFloat.lt v (min_validation_loss s) = true ->
     counter (fst (early_stop s v)) = 0) /\
  (snd (early_stop s v) = true ->
     patience (fst (early_stop s v)) <= counter (fst (early_stop s v))).
Proof.
  split; [ | split].
  - rewrite run_app. apply run_best_le, run_best_not_nan. reflexivity.
  - unfold early_stop. intros ->. reflexivity.
  - unfold early_stop.
    destruct (PyFloat.lt v (min_validation_loss s)); [discriminate | ].
    destruct (PyFloat.gt v _); [ | discriminate].
    simpl. destruct (counter s + 1 >=? patience s) eqn:E; [ | discriminate].
    simpl. lia.
Qed.

Lemma early_stopper_invariants_witness :
  counter (fst (early_stop (mk 2 PyFloat.f0_0 1 PyFloat.f5_0) PyFloat.f4_0)) = 0 /\
  patience (fst (early_stop (mk 2 PyFloat.f0_0 1 PyFloat.f4_0) PyFloat.f4_2))
    <= counter (fst (early_stop (mk 2 PyFloat.f0_0 1 PyFloat.f4_0) PyFloat.f4_2)).
Proof.
  split.
  - apply (proj1 (proj2 (early_stopper_invariants 2 PyFloat.f0_0 [] []
      (mk 2 PyFloat.f0_0 1 PyFloat.f5_0) PyFloat.f4_0))). reflexivity.
  - apply (proj2 (proj2 (early_stopper_invariants 2 PyFloat.f0_0 [] []
      (mk 2 PyFloat.f0_0 1 PyFloat.f4_0) PyFloat.f4_2))). reflexivity.
Defined.

Lemma nan_stream_ignored (s : t) (n : nat) :
  run s (repeat PyFloat.nan n) = s /\
  trace s (repeat PyFloat.nan n) = repeat (s, false) n.
Proof.
  induction n as [ | n [IHr IHt]]; [split; reflexivity | ].
  simpl. split; [exact IHr | ]. now rewrite IHt.
Qed.

Lemma trace_app (xs ys : list spec_float) (s : t) :
  trace s (xs ++ ys) = trace s xs ++ trace (run s xs) ys.
Proof.
  revert s. induction xs as [ | x xs IH]; intros s; simpl;
    [reflexivity | now rewrite IH].
Qed.

End EarlyStopperFacts.

(** ** Record projection *)

Section DatasetFacts.

Import ProteinSMILESDataset.

Lemma iloc_in_range (df : list (gmap string pyval)) (i : Z) :
  0 <= i < DataFrame.len df ->
  exists row, df !! Z.to_nat i = Some row /\ DataFrame.iloc df i = Ok row.
Proof.
  intros Hi. unfold DataFrame.iloc, DataFrame.len in *.
  destruct (df !! Z.to_nat i) as [row | ] eqn:Hrow.
  - exists row. split; [reflexivity | ].
    replace (i <? 0) with false by lia.
    replace ((i <? 0) || (Z.of_nat (length df) <=? i)) with false by lia.
    rewrite Hrow. reflexivity.
  - apply lookup_ge_None in Hrow. lia.
Qed.

Lemma iloc_out_of_range (df : list (gmap string pyval)) (i : Z) :
  DataFrame.len df <= i \/ i < - DataFrame.len df ->
  DataFrame.iloc df i = Raise IndexError.
Proof.
  intros Hi. unfold DataFrame.iloc, DataFrame.len in *.
  destruct (i <? 0) eqn:Hneg.
  - replace ((i + Z.of_nat (length df) <? 0)
              || (Z.of_nat (length df) <=? i + Z.of_nat (length df)))
      with true by lia.
    reflexivity.
  - replace ((i <? 0) || (Z.of_nat (length df) <=? i)) with true by lia.
    reflexivity.
Qed.

Lemma iloc_negative (df : list (gmap string pyval)) (i : Z) :
  - DataFrame.len df <= i < 0 ->
  DataFrame.iloc df i = DataFrame.iloc df (i + DataFrame.len df).
Proof.
  intros Hi. unfold DataFrame.iloc, DataFrame.len in *.
  assert (E1 : (i <? 0) = true) by lia.
  assert (E2 : (i + Z.of_nat (length df) <? 0) = false) by lia.
  rewrite E1. cbv zeta. rewrite E2. cbv iota. rewrite E2. reflexivity.
Qed.

(** C5, as the code has it.  On a dataset of [N] rows, [__getitem__] at a
    position of [0, N) returns the record whose three fields are the values
    the row holds under the three column labels, and raises [KeyError] when
    the row lacks one of the labels; it raises [IndexError] at every
    position at or above [N] and below [-N]; and a position of [-N, 0)
    counts from the end.  The projection is a function of the table and the
    position, it changes nothing. *)
Theorem getitem_projection (self : t) (i : Z) :
  (__len__ self <= i \/ i < - __len__ self ->
     __getitem__ self i = Raise IndexError) /\
  (- __len__ self <= i < 0 ->
     __getitem__ self i = __getitem__ self (i + __len__ self)) /\
  (0 <= i < __len__ self ->
     exists row, df self !! Z.to_nat i = Some row /\
       (forall l p c,
          row !! "Ligand SMILES" = Some l ->
          row !! "BindingDB Target Chain Sequence" = Some p ->
          row !! "IC50 (nM)" = Some c ->
          __getitem__ self i = Ok (mkProteinData l p c)) /\
       (row !! "Ligand SMILES" = None \/
        row !! "BindingDB Target Chain Sequence" = None \/
        row !! "IC50 (nM)" = None ->
          __getitem__ self i = Raise KeyError)).
Proof.
  unfold __getitem__, __len__. split; [ | split].
  - intros Hi. rewrite (iloc_out_of_range _ _ Hi). reflexivity.
  - intros Hi. rewrite (iloc_negative _ _ Hi). reflexivity.
  - intros Hi. destruct (iloc_in_range _ _ Hi) as (row & Hrow & ->).
    exists row. split; [exact Hrow | ]. unfold DataFrame.getitem. simpl. split.
    + intros l p c -> -> ->. reflexivity.
    + intros [Hl | [Hp | Hc]].
      * rewrite Hl. reflexivity.
      * rewrite Hp. destruct (row !! "Ligand SMILES"); reflexivity.
      * rewrite Hc. destruct (row !! "Ligand SMILES"); [ | reflexivity].
        destruct (row !! "BindingDB Target Chain Sequence"); reflexivity.
Qed.

Lemma getitem_projection_witness :
  __getitem__ (mk Examples.table) 2 = Raise IndexError /\
  __getitem__ (mk Examples.table) (-1) = __getitem__ (mk Examples.table) (-1 + 2) /\
  __getitem__ (mk Examples.table) 1 = Ok (mkProteinData (VStr "C") (VStr "MK") (VInt 20)) /\
  __getitem__ (mk [delete "IC50 (nM)" (Examples.row "C" "MK" 20)]) 0 = Raise KeyError.
Proof.
  split; [ | split; [ | split]].
  - apply (proj1 (getitem_projection (mk Examples.table) 2)). left. unfold __len__, DataFrame.len. simpl. lia.
  - apply (proj1 (proj2 (getitem_projection (mk Examples.table) (-1)))).
    unfold __len__, DataFrame.len. simpl. lia.
  - destruct (proj2 (proj2 (getitem_projection (mk Examples.table) 1)))
      as (row & Hrow & Hok & _).
    + unfold __len__, DataFrame.len. simpl. lia.
    + injection Hrow as <-. apply Hok; reflexivity.
  - destruct (proj2 (proj2 (getitem_projection
        (mk [delete "IC50 (nM)" (Examples.row "C" "MK" 20)]) 0)))
      as (row & Hrow & _ & Hko).
    + unfold __len__, DataFrame.len. simpl. lia.
    + injection Hrow as <-. apply Hko. right. right. reflexivity.
Defined.

(** C5 as the specification states it fails: position -1 is outside
    [0, N) and yet returns the last record. *)
Lemma getitem_negative_position_returns :
  ~ (forall (self : t) (i : Z),
       ~ (0 <= i < __len__ self) -> __getitem__ self i = Raise IndexError).
Proof.
  intros C. specialize (C (mk Examples.table) (-1)).
  assert (Hout : ~ (0 <= -1 < __len__ (mk Examples.table))) by lia.
  specialize (C Hout). vm_compute in C. discriminate C.
Qed.

End DatasetFacts.

(** ** Collation *)

Section CollateFacts.

Import TransformerCollate.




Lemma zip_fields (batches : list ProteinData) :
  zip (map ligand batches) (map protein batches)
  = map (fun r => (ligand r, protein r)) batches.
Proof. induction batches as [ | r rest IH]; simpl; [reflexivity | now rewrite IH]. Qed.

Lemma mapM_map {A B C : Type} (g : A -> B) (f : B -> option C) (l : list A) :
  mapM f (map g l) = mapM (fun x => f (g x)) l.
Proof.
  induction l as [ | x l IH]; [reflexivity | ].
  cbn [map]. change (mapM f (g x :: map g l))
    with (y ← f (g x); k ← mapM f (map g l); mret (y :: k)).
  rewrite IH. reflexivity.
Qed.

(** What the tokenizer is asked for a batch: one encoding per record. *)
Lemma tokenizer_asked (tk : Tokenizer) (batches : list ProteinData) :
  mapM (fun p => encode_pair tk (fst p) (snd p))
       (zip (map ligand batches) (map protein batches))
  = mapM (fun r => encode_pair tk (ligand r) (protein r)) batches.
Proof. rewrite zip_fields. apply mapM_map. Qed.


Lemma call_unfold (self : t) (batches : list ProteinData) :
  batches <> [] ->
  __call__ self batches =
  match mapM (fun r => encode_pair (tokenizer self) (ligand r) (protein r)) batches with
  | None => Raise ValueError
  | Some encs =>
      labels ← torch_tensor (map ic50 batches);
      Ok (<["labels" := labels]>
         (<["attention_mask" :=
              Tensor2 (map (fun e => pad_to (longest encs) 0 (map (fun _ => 1) e)) encs)]>
         (<["token_type_ids" :=
              Tensor2 (map (fun e => pad_to (longest encs)
                                       (pad_token_type_id (tokenizer self)) (map snd e)) encs)]>
         (<["input_ids" :=
              Tensor2 (map (fun e => pad_to (longest encs)
                                       (pad_token_id (tokenizer self)) (map fst e)) encs)]>
          ∅))))
  end.
Proof.
  intros Hne. destruct batches as [ | r rest]; [congruence | ].
  unfold __call__, tokenizer_call.
  rewrite <- (tokenizer_asked (tokenizer self) (r :: rest)).
  cbn [map zip zip_with].
  destruct (mapM _ _); reflexivity.
Qed.





(** The padded batch of two records with integer targets, as it is
    computed. *)
Example collate_two_records :
  __call__ (mk Examples.char_tokenizer)
    [mkProteinData (VStr "CCO") (VStr "MKV") (VInt 10);
     mkProteinData (VStr "C") (VStr "MK") (VInt 20)]
  = Ok (<["labels" := Tensor1 [VInt 10; VInt 20]]>
       (<["attention_mask" :=
            Tensor2 [[1; 1; 1; 1; 1; 1; 1; 1; 1]; [1; 1; 1; 1; 1; 1; 0; 0; 0]]]>
       (<["token_type_ids" :=
            Tensor2 [[0; 0; 0; 0; 0; 1; 1; 1; 1]; [0; 0; 0; 1; 1; 1; 0; 0; 0]]]>
       (<["input_ids" :=
            Tensor2 [[101; 1067; 1067; 1079; 102; 1077; 1075; 1086; 102];
                     [101; 1067; 102; 1077; 1075; 102; 0; 0; 0]]]>
        ∅)))).
Proof. reflexivity. Qed.

(** What [torch.tensor] does to the targets, on small lists. *)
Example torch_tensor_cases :
  torch_tensor [VStr ">10000"] = Raise ValueError /\
  torch_tensor [VInt 10; VStr ">10000"] = Raise TypeError /\
  torch_tensor [VInt (2 ^ 63)] = Raise RuntimeError /\
  torch_tensor [VInt (2 ^ 63 - 1); VInt (- 2 ^ 63)]
    = Ok (Tensor1 [VInt (2 ^ 63 - 1); VInt (- 2 ^ 63)]) /\
  torch_tensor [VFloat Examples.f0_1] = Ok (Tensor1 [VFloat Examples.f0_1_as_float32]) /\
  torch_tensor [VFloat PyFloat.nan; VInt 3]
    = Ok (Tensor1 [VFloat PyFloat.nan; VFloat (S754_finite false 12582912 (-22))]) /\
  torch_tensor [] = Ok (Tensor1 []).
Proof. repeat split; vm_compute; reflexivity. Qed.


(** C6, as the code has it.  The tokenizer is loaded when the pipeline is
    constructed: construction raises exactly when the resource cannot be
    loaded and otherwise keeps the loaded tokenizer.  Collation itself makes
    no check on the strings of a record: a non-empty batch is collated
    whenever the tokenizer encodes the pair of each of its records and
    [torch.tensor] accepts its targets, whatever the strings are. *)
Theorem collate_failures (from_pretrained : string -> option Tokenizer)
    (path : string) (self : t) (batches : list ProteinData) (labels : Tensor) :
  (from_pretrained path = None <-> __init__ from_pretrained path = Raise OSError) /\
  (forall tk, from_pretrained path = Some tk <->
              __init__ from_pretrained path = Ok (mk tk)) /\
  (batches <> [] ->
   Forall (fun r => is_Some (encode_pair (tokenizer self) (ligand r) (protein r)))
          batches ->
   torch_tensor (map ic50 batches) = Ok labels ->
   is_ok (__call__ self batches) = true).
Proof.
  unfold __init__. split; [ | split].
  - destruct (from_pretrained path); split; congruence.
  - intros tk. destruct (from_pretrained path); split; congruence.
  - intros Hne Hacc Hlabels. rewrite (call_unfold self batches Hne).
    destruct (proj2 (mapM_is_Some _ batches) Hacc) as [encs ->].
    rewrite Hlabels. reflexivity.
Qed.

Lemma collate_failures_witness :
  __init__ Examples.checkpoints "missing" = Raise OSError /\
  __init__ Examples.checkpoints "Chem_Tokenizer_3" = Ok (mk Examples.char_tokenizer) /\
  is_ok (__call__ (mk Examples.char_tokenizer)
           [mkProteinData (VStr "CCO") (VStr "  ") (VInt 10);
            mkProteinData (VStr "") (VStr "MK") (VInt 20)]) = true.
Proof.
  pose proof (collate_failures Examples.checkpoints "missing"
                (mk Examples.char_tokenizer)
                [mkProteinData (VStr "CCO") (VStr "  ") (VInt 10);
                 mkProteinData (VStr "") (VStr "MK") (VInt 20)]
                (Tensor1 [VInt 10; VInt 20])) as (Hload & _ & Hcall).
  pose proof (collate_failures Examples.checkpoints "Chem_Tokenizer_3"
                (mk Examples.char_tokenizer) [] (Tensor1 [])) as (_ & Hkeep & _).
  split; [ | split].
  - apply Hload. reflexivity.
  - apply Hkeep. reflexivity.
  - apply Hcall.
    + discriminate.
    + repeat constructor; simpl; eexists; reflexivity.
    + reflexivity.
Defined.

(** C6 as the specification states it fails: a record whose ligand string
    is empty is collated like any other when the tokenizer encodes it. *)
Lemma collate_accepts_empty_string :
  ~ (forall (self : t) (batches : list ProteinData),
       Exists (fun r => ligand r = VStr "" \/ protein r = VStr "") batches ->
       is_ok (__call__ self batches) = false).
Proof.
  intros C.
  specialize (C (mk Examples.char_tokenizer)
                [mkProteinData (VStr "") (VStr "MK") (VInt 10)]).
  assert (He : Exists (fun r => ligand r = VStr "" \/ protein r = VStr "")
                 [mkProteinData (VStr "") (VStr "MK") (VInt 10)]).
  { constructor. left. reflexivity. }
  specialize (C He). vm_compute in C. discriminate C.
Qed.

End CollateFacts.

(** ** The validation-aware trainer *)

Section TrainerFacts.

Context {Nets Batch : Type} `{Collaborators Nets Batch}.

Import IC50BertTrainer.

Lemma train_batches_spec (d : torch_device) (loader : list Batch) (n : Nets)
    (acc : spec_float) :
  train_batches d loader n acc
  = (nets_after_batches d loader n,
     fold_left PyFloat.add (train_losses d loader n) acc).
Proof.
  revert n acc. induction loader as [ | b rest IH]; intros n acc; simpl.
  - reflexivity.
  - destruct (train_batch n d b) as [n' loss]. simpl. apply IH.
Qed.

Lemma val_batches_spec (d : torch_device) (loader : list Batch) (n : Nets)
    (acc : spec_float) :
  val_batches d loader n acc = fold_left PyFloat.add (map (val_batch n d) loader) acc.
Proof.
  revert acc. induction loader as [ | b rest IH]; intros acc; simpl;
    [reflexivity | apply IH].
Qed.

Lemma length_train_losses (d : torch_device) (loader : list Batch) (n : Nets) :
  length (train_losses d loader n) = length loader.
Proof.
  revert n. induction loader as [ | b rest IH]; intros n; simpl; [reflexivity | ].
  destruct (train_batch n d b) as [n' loss]. simpl. now rewrite IH.
Qed.

Lemma py_truediv_nonempty {A : Type} (x : spec_float) (l : list A) :
  l <> [] ->
  py_truediv x (loader_len l)
  = Ok (PyFloat.div x (PyFloat.of_int (Z.of_nat (length l)))).
Proof.
  intros Hl. unfold py_truediv, loader_len.
  destruct l as [ | a l]; [congruence | ].
  replace (Z.of_nat (length (a :: l)) =? 0) with false; [reflexivity | ].
  symmetry. apply Z.eqb_neq. rewrite length_cons. lia.
Qed.

Lemma truthy_Some (o : option (list Batch)) :
  truthy o = true -> exists b l, o = Some (b :: l).
Proof.
  destruct o as [[ | b l] | ]; simpl; try discriminate. eauto.
Qed.

(** One iteration of the loop, up to the monitor, computes what the
    uninterrupted run is defined by. *)
Lemma epoch_spec (self : t) (avg : episode_losses) :
  dataloader self <> [] ->
  epoch self avg
  = Ok (after_epoch self (nets self),
        mkLosses
          (Train avg ++ [round4 (train_loss_of self (nets self))])
          (Validation avg ++
             (if truthy (val_dataloader self)
              then [round4 (val_loss_of self (nets self))] else [])),
        stop_loss_of self (nets self)).
Proof.
  intros Hdl. unfold epoch, after_epoch, stop_loss_of.
  rewrite train_batches_spec, (py_truediv_nonempty _ _ Hdl).
  cbn [mbind result_bind].
  unfold train_loss_of, mean, total. rewrite length_train_losses.
  destruct (truthy (val_dataloader self)) eqn:Htr.
  - destruct (truthy_Some _ Htr) as (b & l & Hval).
    unfold val_loss_of, val_losses, after_training, mean, total.
    rewrite Hval. cbn [default]. rewrite val_batches_spec.
    rewrite py_truediv_nonempty by discriminate.
    cbn [mbind result_bind Train Validation]. rewrite length_map. reflexivity.
  - cbn [Train Validation]. rewrite app_nil_r. reflexivity.
Qed.

Lemma start_of_succ (self : t) (nets0 : Nets) (k : nat) :
  start_of self nets0 (S k) = start_of self (after_epoch self nets0) k.
Proof. unfold start_of. apply Nat.iter_succ_r. Qed.

Lemma map_seq_succ {A : Type} (f : nat -> A) (n : nat) :
  map f (seq 0 (S n)) = f 0%nat :: map (fun i => f (S i)) (seq 0 n).
Proof. simpl. f_equal. rewrite <- seq_shift, map_map. reflexivity. Qed.

Lemma stop_stream_succ (self : t) (nets0 : Nets) (n : nat) :
  stop_stream self nets0 (S n)
  = stop_loss_of self nets0 :: stop_stream self (after_epoch self nets0) n.
Proof.
  unfold stop_stream. rewrite map_seq_succ. f_equal.
  apply map_ext. intros i. now rewrite start_of_succ.
Qed.

Lemma with_state_id (self : @t Nets Batch) :
  with_state self (nets self) (early_stopper self) = self.
Proof. destruct self; reflexivity. Qed.

Lemma epochs_spec (n : nat) (self : @t Nets Batch) (avg : episode_losses)
    (log : list spec_float) :
  dataloader self <> [] ->
  epochs n self avg log
  = Ok (recorded self (nets self) avg log (completed (answers self (nets self) n))).
Proof.
  revert self avg log. induction n as [ | n IH]; intros self avg log Hdl.
  - unfold recorded. simpl. destruct (truthy (val_dataloader self));
      rewrite ?app_nil_r, with_state_id; destruct avg; reflexivity.
  - cbn [epochs]. rewrite (epoch_spec self avg Hdl). cbn [mbind result_bind].
    unfold answers. rewrite stop_stream_succ. cbn [EarlyStopper.trace map].
    destruct (EarlyStopper.early_stop (early_stopper self) (stop_loss_of self (nets self)))
      as [es' stop] eqn:Hes.
    cbn [snd fst]. destruct stop.
    + cbn [completed]. unfold recorded. cbn [seq map].
      change (stop_stream self (nets self) 1) with [stop_loss_of self (nets self)].
      cbn [EarlyStopper.run]. rewrite Hes. cbn [fst].
      destruct (truthy (val_dataloader self)); reflexivity.
    + cbn [completed].
      rewrite (IH (with_state self (after_epoch self (nets self)) es')) by exact Hdl.
      f_equal.
      change (answers (with_state self (after_epoch self (nets self)) es')
                (nets (with_state self (after_epoch self (nets self)) es')) n)
        with (map snd (EarlyStopper.trace es'
                (stop_stream self (after_epoch self (nets self)) n))).
      set (k := completed _).
      unfold recorded. cbn [Train Validation nets early_stopper with_state
                             dataloader val_dataloader device num_epochs].
      rewrite stop_stream_succ, !map_seq_succ. cbn [EarlyStopper.run].
      rewrite Hes. cbn [fst].
      rewrite <- !app_assoc. cbn [app].
      f_equal; [f_equal | f_equal].
      * f_equal. f_equal. apply map_ext. intros i. now rewrite start_of_succ.
      * destruct (truthy (val_dataloader self)); [ | now rewrite !app_nil_r].
        cbn [app]. f_equal. f_equal.
        apply map_ext. intros i. now rewrite start_of_succ.
      * now rewrite start_of_succ.
Qed.

Lemma train_spec (self : @t Nets Batch) (n1 n2 : Nets) :
  model_to (nets self) (device self) = Ok n1 ->
  criterion_to n1 (device self) = Ok n2 ->
  dataloader self <> [] ->
  train self
  = Ok (recorded self n2 (mkLosses [] []) []
          (completed (answers self n2 (Z.to_nat (num_epochs self))))).
Proof.
  intros Hm Hc Hdl. unfold train. rewrite Hm. cbn [mbind result_bind].
  rewrite Hc. cbn [mbind result_bind].
  rewrite epochs_spec by exact Hdl. reflexivity.
Qed.

Lemma completed_no_stop (stops : list bool) :
  Forall (eq false) stops -> completed stops = length stops.
Proof.
  induction 1 as [ | b rest <- _ IH]; simpl; [reflexivity | now rewrite IH].
Qed.

Lemma completed_first_stop (stops : list bool) (k : nat) :
  stops !! k = Some true ->
  (forall j, (j < k)%nat -> stops !! j = Some false) ->
  completed stops = S k.
Proof.
  revert stops. induction k as [ | k IH]; intros [ | b rest] Hk Hbefore;
    try discriminate.
  - injection Hk as ->. reflexivity.
  - assert (Hb : b = false).
    { specialize (Hbefore 0%nat ltac:(lia)). now injection Hbefore. }
    subst b. simpl. f_equal. apply IH; [exact Hk | ].
    intros j Hj. apply (Hbefore (S j)). lia.
Qed.

Lemma length_trace (es : EarlyStopper.t) (losses : list spec_float) :
  length (EarlyStopper.trace es losses) = length losses.
Proof.
  revert es. induction losses as [ | v rest IH]; intros es; simpl;
    [reflexivity | now rewrite IH].
Qed.

Lemma length_answers (self : @t Nets Batch) (nets0 : Nets) (n : nat) :
  length (answers self nets0 n) = n.
Proof.
  unfold answers, stop_stream.
  now rewrite length_map, length_trace, length_map, length_seq.
Qed.

Lemma recorded_lengths (self : @t Nets Batch) (nets0 : Nets) (k : nat) :
  let r := recorded self nets0 (mkLosses [] []) [] k in
  length (Train (avg_episode_losses r)) = k /\
  length (Validation (avg_episode_losses r))
    = (if truthy (val_dataloader self) then k else 0%nat) /\
  length (fed r) = k.
Proof.
  unfold recorded, stop_stream. cbn.
  destruct (truthy (val_dataloader self)); cbn;
    rewrite ?length_map, ?length_seq; auto.
Qed.

(** C2, as the code has it.  Let the torch objects reach the device, the
    training loader hold at least one batch and [num_epochs] be
    non-negative.  When the monitor answers no stop on any of the
    [num_epochs] epochs, [train] returns [num_epochs] training entries; when
    its first stop comes with epoch [k] (counted from 1), [train] returns
    after [k] whole epochs with [k] training entries.  In both cases the
    returned lists are those of [recorded]: entry [i] belongs to epoch [i],
    and there is one validation entry per epoch when the validation loader
    is true (not [None] and not empty), none otherwise. *)
Theorem train_records_one_entry_per_epoch (self : @t Nets Batch) (n1 n2 : Nets) :
  model_to (nets self) (device self) = Ok n1 ->
  criterion_to n1 (device self) = Ok n2 ->
  dataloader self <> [] ->
  0 <= num_epochs self ->
  (Forall (eq false) (answers self n2 (Z.to_nat (num_epochs self))) ->
     exists r : run,
       train self = Ok r /\
       r = recorded self n2 (mkLosses [] []) [] (Z.to_nat (num_epochs self)) /\
       Z.of_nat (length (Train (avg_episode_losses r))) = num_epochs self /\
       length (Validation (avg_episode_losses r))
         = (if truthy (val_dataloader self) then Z.to_nat (num_epochs self) else 0%nat)) /\
  (forall k : nat,
     (1 <= k)%nat ->
     answers self n2 (Z.to_nat (num_epochs self)) !! (k - 1)%nat = Some true ->
     (forall j, (j < k - 1)%nat ->
        answers self n2 (Z.to_nat (num_epochs self)) !! j = Some false) ->
     exists r : run,
       train self = Ok r /\
       r = recorded self n2 (mkLosses [] []) [] k /\
       (Z.of_nat k <= num_epochs self) /\
       length (Train (avg_episode_losses r)) = k /\
       length (Validation (avg_episode_losses r))
         = (if truthy (val_dataloader self) then k else 0%nat) /\
       nets (self_after r) = start_of self n2 k).
Proof.
  intros Hm Hc Hdl Hn. rewrite (train_spec self n1 n2 Hm Hc Hdl). split.
  - intros Hno. rewrite (completed_no_stop _ Hno), length_answers.
    eexists. split; [reflexivity | ]. split; [reflexivity | ].
    destruct (recorded_lengths self n2 (Z.to_nat (num_epochs self))) as (Ht & Hv & _).
    rewrite Ht, Hv. split; [lia | reflexivity].
  - intros k Hk Hstop Hbefore.
    rewrite (completed_first_stop _ (k - 1) Hstop Hbefore).
    replace (S (k - 1)) with k by lia.
    eexists. split; [reflexivity | ]. split; [reflexivity | ].
    destruct (recorded_lengths self n2 k) as (Ht & Hv & _).
    rewrite Ht, Hv. split; [ | auto].
    apply lookup_lt_Some in Hstop. rewrite length_answers in Hstop. lia.
Qed.

(** C3, as the code has it.  Let the torch objects reach the device and the
    training loader hold at least one batch.  In every epoch the recorded
    training loss is the accumulated per-batch loss divided by the number of
    training batches; the value given to the monitor is the accumulated
    validation loss divided by the number of validation batches when the
    validation loader holds at least one batch, and the training loss when
    there is no validation loader or it holds no batch. *)
Theorem monitor_is_fed (self : @t Nets Batch) (n1 n2 : Nets) :
  model_to (nets self) (device self) = Ok n1 ->
  criterion_to n1 (device self) = Ok n2 ->
  dataloader self <> [] ->
  exists r : run,
    train self = Ok r /\
    length (fed r) = length (Train (avg_episode_losses r)) /\
    forall (i : nat) (v : spec_float),
      fed r !! i = Some v ->
      let start := start_of self n2 i in
      let train_loss :=
        PyFloat.div
          (total (train_losses (device self) (dataloader self) (model_train start)))
          (PyFloat.of_int (loader_len (dataloader self))) in
      Train (avg_episode_losses r) !! i = Some (round4 train_loss) /\
      match val_dataloader self with
      | Some (b :: rest) =>
          v = PyFloat.div (total (val_losses self (b :: rest) start))
                (PyFloat.of_int (loader_len (b :: rest)))
      | Some [] | None => v = train_loss
      end.
Proof.
  intros Hm Hc Hdl. rewrite (train_spec self n1 n2 Hm Hc Hdl).
  set (k := completed _). eexists. split; [reflexivity | ].
  destruct (recorded_lengths self n2 k) as (Ht & _ & Hf). split; [congruence | ].
  intros i v Hv. unfold recorded in *. cbn [fed avg_episode_losses Train app] in *.
  unfold stop_stream in Hv.
  change (map ?f ?l) with (f <$> l) in Hv |- *.
  rewrite list_lookup_fmap in Hv. rewrite list_lookup_fmap.
  destruct (seq 0 k !! i) as [i' | ] eqn:Hi; [ | discriminate].
  apply lookup_seq in Hi as [-> _]. cbn [fmap option_fmap option_map] in *.
  injection Hv as <-.
  assert (Htl : train_loss_of self (start_of self n2 i)
                = PyFloat.div
                    (total (train_losses (device self) (dataloader self)
                              (model_train (start_of self n2 i))))
                    (PyFloat.of_int (loader_len (dataloader self)))).
  { unfold train_loss_of, mean, loader_len. now rewrite length_train_losses. }
  change (0 + i)%nat with i.
  split; [now rewrite Htl | ].
  unfold stop_loss_of, val_loss_of.
  destruct (val_dataloader self) as [[ | b rest] | ]; cbn [truthy default];
    try exact Htl.
  replace (negb (loader_len (b :: rest) =? 0)) with true.
  - unfold mean, val_losses, loader_len. now rewrite length_map.
  - unfold loader_len. rewrite length_cons. symmetry. apply negb_true_iff, Z.eqb_neq. lia.
Qed.

Lemma stop_stream_split (self : @t Nets Batch) (nets0 : Nets) (j n : nat) :
  (j <= n)%nat ->
  stop_stream self nets0 n
  = stop_stream self nets0 j
    ++ map (fun k => stop_loss_of self (start_of self nets0 k)) (seq j (n - j)).
Proof.
  intros Hj. unfold stop_stream. rewrite <- map_app, <- seq_app.
  do 2 f_equal. lia.
Qed.

Lemma map_all_nan (f : nat -> spec_float) (l : list nat) :
  (forall k, In k l -> f k = PyFloat.nan) ->
  map f l = repeat PyFloat.nan (length l).
Proof.
  induction l as [ | k l IH]; intros Hall; simpl; [reflexivity | ].
  rewrite (Hall k) by (left; reflexivity).
  rewrite IH; [reflexivity | ]. intros k' Hk'. apply Hall. right. exact Hk'.
Qed.

(** C10. A NaN loss is ignored by the monitor in every state and
    configuration: the call answers no stop and changes neither
    [min_validation_loss] nor the counter, and so does a stream of NaN
    losses of any length.  Hence a run of [train] that was not stopped
    during its first [j] epochs and whose monitored loss is NaN from then
    on goes through all its [num_epochs] epochs. *)
Theorem nan_loss_never_stops (s : EarlyStopper.t) (m : nat)
    (self : @t Nets Batch) (n1 n2 : Nets) (j : nat) :
  (EarlyStopper.early_stop s PyFloat.nan = (s, false) /\
   EarlyStopper.run s (repeat PyFloat.nan m) = s /\
   EarlyStopper.trace s (repeat PyFloat.nan m) = repeat (s, false) m) /\
  (model_to (nets self) (device self) = Ok n1 ->
   criterion_to n1 (device self) = Ok n2 ->
   dataloader self <> [] ->
   (j <= Z.to_nat (num_epochs self))%nat ->
   Forall (eq false) (answers self n2 j) ->
   (forall i, (j <= i < Z.to_nat (num_epochs self))%nat ->
      stop_loss_of self (start_of self n2 i) = PyFloat.nan) ->
   exists r : run,
     train self = Ok r /\
     length (Train (avg_episode_losses r)) = Z.to_nat (num_epochs self) /\
     length (fed r) = Z.to_nat (num_epochs self)).
Proof.
  split.
  - split; [reflexivity | apply nan_stream_ignored].
  - intros Hm Hc Hdl Hj Hbefore Hnan.
    rewrite (train_spec self n1 n2 Hm Hc Hdl).
    assert (Hno : Forall (eq false) (answers self n2 (Z.to_nat (num_epochs self)))).
    { unfold answers in *. rewrite (stop_stream_split self n2 j _ Hj).
      rewrite map_all_nan.
      - rewrite trace_app, map_app. apply Forall_app. split; [exact Hbefore | ].
        rewrite (proj2 (nan_stream_ignored _ _)).
        generalize (length (seq j (Z.to_nat (num_epochs self) - j))).
        intros c. induction c as [ | c IHc]; simpl; constructor; auto.
      - intros k Hk. apply in_seq in Hk. apply Hnan. lia. }
    rewrite (completed_no_stop _ Hno), length_answers.
    eexists. split; [reflexivity | ].
    destruct (recorded_lengths self n2 (Z.to_nat (num_epochs self))) as (Ht & _ & Hf).
    split; assumption.
Qed.

End TrainerFacts.

(** *** Runs of the trainer on the small instances *)

Section TrainerRuns.

Import IC50BertTrainer.

Lemma train_records_one_entry_per_epoch_witness :
  (exists r : run,
     train (H := Examples.stub true)
       (Examples.trainer [PyFloat.f3_0; PyFloat.f1_0] (Some [PyFloat.f2_0]) 3 Cpu) = Ok r /\
     r = recorded (H := Examples.stub true)
           (Examples.trainer [PyFloat.f3_0; PyFloat.f1_0] (Some [PyFloat.f2_0]) 3 Cpu)
           0%nat (mkLosses [] []) [] 3 /\
     Z.of_nat (length (Train (avg_episode_losses r))) = 3 /\
     length (Validation (avg_episode_losses r)) = 3%nat) /\
  (exists r : run,
     train (H := Examples.stub true)
       (Examples.trainer [PyFloat.f3_0; PyFloat.f1_0] None 20 Cpu) = Ok r /\
     r = recorded (H := Examples.stub true)
           (Examples.trainer [PyFloat.f3_0; PyFloat.f1_0] None 20 Cpu)
           0%nat (mkLosses [] []) [] 11 /\
     (Z.of_nat 11 <= 20) /\
     length (Train (avg_episode_losses r)) = 11%nat /\
     length (Validation (avg_episode_losses r)) = 0%nat /\
     nets (self_after r) = 22%nat).
Proof.
  split.
  - apply (proj1 (train_records_one_entry_per_epoch (H := Examples.stub true)
        (Examples.trainer [PyFloat.f3_0; PyFloat.f1_0] (Some [PyFloat.f2_0]) 3 Cpu)
        0%nat 0%nat eq_refl eq_refl ltac:(discriminate) ltac:(simpl; lia))).
    vm_compute. repeat constructor.
  - apply (proj2 (train_records_one_entry_per_epoch (H := Examples.stub true)
        (Examples.trainer [PyFloat.f3_0; PyFloat.f1_0] None 20 Cpu)
        0%nat 0%nat eq_refl eq_refl ltac:(discriminate) ltac:(simpl; lia)) 11%nat).
    + lia.
    + vm_compute. reflexivity.
    + intros j Hj.
      do 10 (destruct j as [ | j]; [vm_compute; reflexivity | ]). lia.
Defined.

Lemma nan_loss_never_stops_witness :
  exists r : run,
    train (H := Examples.stub true)
      (Examples.trainer [PyFloat.f3_0] (Some [PyFloat.nan]) 12 Cpu) = Ok r /\
    length (Train (avg_episode_losses r)) = 12%nat /\
    length (fed r) = 12%nat.
Proof.
  apply (proj2 (nan_loss_never_stops (H := Examples.stub true)
                  (EarlyStopper.__init__ 10 PyFloat.f0_05) 0
                  (Examples.trainer [PyFloat.f3_0] (Some [PyFloat.nan]) 12 Cpu)
                  0%nat 0%nat 0%nat) eq_refl eq_refl).
  - discriminate.
  - simpl. lia.
  - constructor.
  - intros i _. reflexivity.
Defined.

(** C2 as the specification states it fails: a validation loader that is
    supplied but holds no batch is false, the validation pass is skipped and
    no validation entry is recorded. *)
Lemma empty_validation_loader_records_nothing :
  ~ (forall (self : @t nat spec_float) (r : run) (val_loader : list spec_float),
       val_dataloader self = Some val_loader ->
       train (H := Examples.stub true) self = Ok r ->
       Forall (eq false)
         (answers (H := Examples.stub true) self (nets self)
            (Z.to_nat (num_epochs self))) ->
       Z.of_nat (length (Train (avg_episode_losses r))) = num_epochs self /\
       Z.of_nat (length (Validation (avg_episode_losses r))) = num_epochs self).
Proof.
  intros C.
  specialize (C (Examples.trainer [PyFloat.f3_0] (Some []) 1 Cpu) _ [] eq_refl eq_refl).
  assert (Hno : Forall (eq false)
                  (answers (H := Examples.stub true)
                     (Examples.trainer [PyFloat.f3_0] (Some []) 1 Cpu) 0%nat 1)).
  { vm_compute. repeat constructor. }
  destruct (C Hno) as [_ Hval]. vm_compute in Hval. discriminate Hval.
Qed.

Lemma monitor_is_fed_witness :
  exists r : run,
    train (H := Examples.stub true)
      (Examples.trainer [PyFloat.f3_0; PyFloat.f1_0] (Some [PyFloat.f2_0]) 3 Cpu) = Ok r /\
    fed r = [PyFloat.f2_0; PyFloat.f2_0; PyFloat.f2_0] /\
    Train (avg_episode_losses r)
      = [S754_finite false 5629499534213120 (-51);
         S754_finite false 5066549580791808 (-50);
         S754_finite false 7318349394477056 (-50)].
Proof.
  destruct (monitor_is_fed (H := Examples.stub true)
              (Examples.trainer [PyFloat.f3_0; PyFloat.f1_0] (Some [PyFloat.f2_0]) 3 Cpu)
              0%nat 0%nat eq_refl eq_refl ltac:(discriminate)) as (r & Hr & _ & _).
  exists r. split; [exact Hr | ].
  vm_compute in Hr. injection Hr as <-. split; reflexivity.
Defined.

(** C3 as the specification states it fails: with a validation loader that
    is configured but holds no batch, the monitor is given the training
    loss. *)
Lemma empty_validation_loader_feeds_train_loss :
  ~ (forall (self : @t nat spec_float) (r : run) (val_loader : list spec_float)
            (i : nat) (v : spec_float),
       val_dataloader self = Some val_loader ->
       train (H := Examples.stub true) self = Ok r ->
       fed r !! i = Some v ->
       v = mean (val_losses (H := Examples.stub true) self val_loader
                   (start_of (H := Examples.stub true) self (nets self) i))).
Proof.
  intros C.
  specialize (C (Examples.trainer [PyFloat.f3_0] (Some []) 1 Cpu) _ [] 0%nat PyFloat.f3_0
                eq_refl eq_refl eq_refl).
  vm_compute in C. discriminate C.
Qed.

End TrainerRuns.

(** ** The device *)

Section DeviceFacts.

Context {Nets Batch : Type} `{Collaborators Nets Batch}.

(** C7, as the code has it.  Construction stores the requested device and
    never fails.  In the validation-aware trainer the device is first used
    at the start of [train]: when moving the model or the criterion to it
    fails, [train] raises that failure, whatever the loaders and the number
    of epochs, so before any epoch.  The plain trainer asks whether CUDA is
    available and runs on the CPU when it is not. *)
Theorem device_is_first_used_by_train (model : Nets)
    (train_loader : list Batch) (val_loader : option (list Batch)) (n : Z)
    (d : torch_device) (self : @IC50BertTrainer.t Nets Batch)
    (plain : @PlainTrainer.t Nets Batch) :
  IC50BertTrainer.__init__ model train_loader val_loader n d
    = Ok (IC50BertTrainer.mk model train_loader val_loader n d
            (EarlyStopper.__init__ 10 PyFloat.f0_05)) /\
  (forall e, model_to (IC50BertTrainer.nets self) (IC50BertTrainer.device self) = Raise e ->
             IC50BertTrainer.train self = Raise e) /\
  (forall n1 e,
     model_to (IC50BertTrainer.nets self) (IC50BertTrainer.device self) = Ok n1 ->
     criterion_to n1 (IC50BertTrainer.device self) = Raise e ->
     IC50BertTrainer.train self = Raise e) /\
  (cuda_is_available = false ->
     PlainTrainer.train plain
     = (nets1 ← model_to (PlainTrainer.nets plain) Cpu;
        nets2 ← criterion_to nets1 Cpu;
        PlainTrainer.epochs (Z.to_nat (PlainTrainer.num_epochs plain)) Cpu
          (PlainTrainer.mk nets2 (PlainTrainer.dataloader plain)
             (PlainTrainer.num_epochs plain)) [])).
Proof.
  split; [reflexivity | ]. split; [ | split].
  - intros e He. unfold IC50BertTrainer.train. rewrite He. reflexivity.
  - intros n1 e Hm Hc. unfold IC50BertTrainer.train. rewrite Hm.
    cbn [mbind result_bind]. rewrite Hc. reflexivity.
  - intros Hno. unfold PlainTrainer.train, PlainTrainer.pick_device.
    rewrite Hno. reflexivity.
Qed.

End DeviceFacts.

Lemma device_is_first_used_by_train_witness :
  IC50BertTrainer.train (H := Examples.stub false)
    (Examples.trainer [PyFloat.f3_0] None 1 Cuda) = Raise RuntimeError /\
  PlainTrainer.train (H := Examples.stub false) (Examples.plain_trainer [PyFloat.f3_0] 1)
    = Ok ([PyFloat.f3_0], PlainTrainer.mk 1%nat [PyFloat.f3_0] 1).
Proof.
  pose proof (device_is_first_used_by_train (H := Examples.stub false) 0%nat
                [PyFloat.f3_0] None 1 Cuda
                (Examples.trainer [PyFloat.f3_0] None 1 Cuda)
                (Examples.plain_trainer [PyFloat.f3_0] 1)) as (_ & Hraise & _ & Hplain).
  split.
  - apply Hraise. reflexivity.
  - rewrite Hplain by reflexivity. vm_compute. reflexivity.
Defined.

(** C7 as the specification states it fails: with no accelerator, asking
    for one still constructs the trainer (the failure waits for [train]),
    and the plain trainer trains on the CPU without failing. *)
Lemma construction_ignores_the_device :
  ~ (forall (model : nat) (train_loader : list spec_float)
            (val_loader : option (list spec_float)) (n : Z),
       model_to (Collaborators := Examples.stub false) model Cuda = Raise RuntimeError ->
       IC50BertTrainer.__init__ model train_loader val_loader n Cuda
         = Raise RuntimeError) /\
  is_ok (PlainTrainer.train (H := Examples.stub false)
           (Examples.plain_trainer [PyFloat.f3_0] 1)) = true.
Proof.
  split; [ | vm_compute; reflexivity].
  intros C. specialize (C 0%nat [PyFloat.f3_0] None 1 eq_refl). discriminate C.
Qed.

(** * Further properties of the code *)

(** ** The monitor as a running minimum and a counter *)

Section EarlyStopperMore.

Import EarlyStopper.

Lemma pos_cont_antisym (m1 m2 : positive) :
  Pos.compare_cont Eq m2 m1 = CompOpp (Pos.compare_cont Eq m1 m2).
Proof. exact (Pos.compare_antisym m1 m2). Qed.

Lemma compare_antisym (x y : spec_float) :
  SFcompare y x
  = match SFcompare x y with Some c => Some (CompOpp c) | None => None end.
Proof.
  destruct x as [sx | sx | | sx mx ex], y as [sy | sy | | sy my ey];
    try reflexivity; try (destruct sx; reflexivity);
    try (destruct sy; reflexivity); try (destruct sx, sy; reflexivity).
  simpl. destruct sx, sy; try reflexivity;
    rewrite (Z.compare_antisym ex ey);
    destruct (ex ?= ey); simpl; try reflexivity;
    rewrite (pos_cont_antisym mx my);
    destruct (Pos.compare_cont Eq mx my); reflexivity.
Qed.

Lemma not_lt_le (v b : spec_float) :
  PyFloat.is_nan v = false -> PyFloat.is_nan b = false ->
  PyFloat.lt v b = false -> PyFloat.le b v = true.
Proof.
  intros Hv Hb. unfold PyFloat.lt, PyFloat.le. rewrite (compare_antisym v b).
  destruct (SFcompare v b) as [[ | | ] | ] eqn:E; simpl; try congruence.
  destruct v, b; simpl in *; try discriminate;
    repeat match goal with s : bool |- _ => destruct s end; discriminate.
Qed.

Lemma early_stop_best (s : t) (v : spec_float) :
  min_validation_loss (fst (early_stop s v))
  = if PyFloat.lt v (min_validation_loss s) then v else min_validation_loss s.
Proof.
  unfold early_stop. destruct (PyFloat.lt v (min_validation_loss s)); [reflexivity | ].
  destruct (PyFloat.gt v _); [ | reflexivity].
  cbn [incr_counter counter patience]. destruct (counter s + 1 >=? patience s); reflexivity.
Qed.

Lemma run_minimum (losses : list spec_float) (s : t) :
  PyFloat.is_nan (min_validation_loss s) = false ->
  (forall v, In v losses -> PyFloat.is_nan v = false ->
     PyFloat.le (min_validation_loss (run s losses)) v = true) /\
  (min_validation_loss (run s losses) = min_validation_loss s \/
   In (min_validation_loss (run s losses)) losses).
Proof.
  revert s. induction losses as [ | v rest IH]; intros s Hs; simpl.
  - split; [contradiction | left; reflexivity].
  - pose proof (early_stop_best_not_nan s v Hs) as Hs1.
    destruct (IH _ Hs1) as [Hlow Hmem]. split.
    + intros w [<- | Hw] Hnan; [ | apply Hlow; assumption].
      eapply le_trans; [apply run_best_le, Hs1 | ].
      rewrite early_stop_best.
      destruct (PyFloat.lt v (min_validation_loss s)) eqn:Hlt.
      * apply le_refl, Hnan.
      * apply not_lt_le; assumption.
    + destruct Hmem as [Heq | Hin]; [ | right; right; exact Hin].
      rewrite Heq, early_stop_best.
      destruct (PyFloat.lt v (min_validation_loss s)); [right; left | left]; reflexivity.
Qed.

(** X1. [min_validation_loss] is the running minimum of the losses a
    constructed monitor has been given: it is at most every loss of the
    stream that is not NaN, and it is +infinity or one of those losses. *)
Theorem best_is_running_minimum (p : Z) (d : spec_float)
    (losses : list spec_float) :
  (forall v, In v losses -> PyFloat.is_nan v = false ->
     PyFloat.le (min_validation_loss (run (__init__ p d) losses)) v = true) /\
  (min_validation_loss (run (__init__ p d) losses) = PyFloat.inf \/
   In (min_validation_loss (run (__init__ p d) losses)) losses).
Proof.
  assert (Hinit : PyFloat.is_nan (min_validation_loss (__init__ p d)) = false)
    by reflexivity.
  destruct (run_minimum losses (__init__ p d) Hinit) as [Hlow Hmem].
  split; [exact Hlow | exact Hmem].
Qed.

Lemma best_is_running_minimum_witness :
  PyFloat.le
    (min_validation_loss
       (run (__init__ 2 PyFloat.f0_0) [PyFloat.f5_0; PyFloat.nan; PyFloat.f4_0; PyFloat.f4_2]))
    PyFloat.f4_2 = true.
Proof.
  apply (proj1 (best_is_running_minimum 2 PyFloat.f0_0
                  [PyFloat.f5_0; PyFloat.nan; PyFloat.f4_0; PyFloat.f4_2])).
  - simpl. auto.
  - reflexivity.
Defined.

Lemma gt_nan_r (x : spec_float) : PyFloat.gt x PyFloat.nan = false.
Proof. destruct x; reflexivity. Qed.

Lemma first_call_counter (p : Z) (d v : spec_float) :
  counter (fst (early_stop (__init__ p d) v)) = 0.
Proof.
  unfold early_stop, __init__; cbn [min_validation_loss min_delta counter patience].
  destruct (PyFloat.lt v PyFloat.inf); [reflexivity | ].
  destruct (add_inf_l d) as [-> | ->]; [rewrite gt_inf_r | rewrite gt_nan_r]; reflexivity.
Qed.

Lemma early_stop_counter_step (s : t) (v : spec_float) :
  0 <= counter s ->
  0 <= counter (fst (early_stop s v)) <= counter s + 1.
Proof.
  intros Hc. unfold early_stop.
  destruct (PyFloat.lt v (min_validation_loss s)); [simpl; lia | ].
  destruct (PyFloat.gt v _); [ | simpl; lia].
  cbn [incr_counter counter patience].
  destruct (counter s + 1 >=? patience s); simpl; lia.
Qed.

Lemma run_counter_bound (losses : list spec_float) (s : t) :
  0 <= counter s ->
  0 <= counter (run s losses) <= counter s + Z.of_nat (length losses).
Proof.
  revert s. induction losses as [ | v rest IH]; intros s Hc; simpl run.
  - simpl. lia.
  - pose proof (early_stop_counter_step s v Hc) as Hstep.
    specialize (IH (fst (early_stop s v)) ltac:(lia)).
    rewrite length_cons. lia.
Qed.

Lemma run_config (losses : list spec_float) (s : t) :
  patience (run s losses) = patience s /\ min_delta (run s losses) = min_delta s.
Proof.
  revert s. induction losses as [ | v rest IH]; intros s; simpl; [split; reflexivity | ].
  destruct (IH (fst (early_stop s v))) as [-> ->]. apply early_stop_config.
Qed.

Lemma run_counter_from_init (p : Z) (d : spec_float) (losses : list spec_float) :
  0 <= counter (run (__init__ p d) losses)
    <= Z.max 0 (Z.of_nat (length losses) - 1).
Proof.
  destruct losses as [ | v rest]; [simpl; lia | ].
  simpl run. rewrite length_cons.
  pose proof (run_counter_bound rest (fst (early_stop (__init__ p d) v))) as Hb.
  rewrite first_call_counter in Hb. lia.
Qed.

(** X2. Whatever the stream of losses, a constructed monitor keeps its
    [patience] and [min_delta], and its counter stays between 0 and the
    number of calls made less one (the first call never counts). *)
Theorem counter_is_bounded_by_calls (p : Z) (d : spec_float)
    (losses : list spec_float) :
  patience (run (__init__ p d) losses) = p /\
  min_delta (run (__init__ p d) losses) = d /\
  0 <= counter (run (__init__ p d) losses)
    <= Z.max 0 (Z.of_nat (length losses) - 1).
Proof.
  destruct (run_config losses (__init__ p d)) as [Hp Hd].
  split; [exact Hp | ]. split; [exact Hd | ]. apply run_counter_from_init.
Qed.

Lemma trace_lookup (losses : list spec_float) (s : t) (i : nat) (r : t * bool) :
  trace s losses !! i = Some r ->
  exists v, losses !! i = Some v /\ r = early_stop (run s (take i losses)) v.
Proof.
  revert s i. induction losses as [ | v rest IH]; intros s i Hr; [discriminate | ].
  destruct i as [ | i]; simpl in *.
  - injection Hr as <-. exists v. split; reflexivity.
  - apply IH, Hr.
Qed.

Lemma run_snoc (losses : list spec_float) (s : t) (v : spec_float) :
  run s (losses ++ [v]) = fst (early_stop (run s losses) v).
Proof. rewrite run_app. reflexivity. Qed.

Lemma stop_reached_patience (s : t) (v : spec_float) :
  snd (early_stop s v) = true -> patience s <= counter (fst (early_stop s v)).
Proof.
  unfold early_stop.
  destruct (PyFloat.lt v (min_validation_loss s)); [discriminate | ].
  destruct (PyFloat.gt v _); [ | discriminate].
  cbn [incr_counter counter patience].
  destruct (counter s + 1 >=? patience s) eqn:E; [ | discriminate]. simpl. lia.
Qed.

Lemma stop_counter_bounds (p : Z) (d : spec_float)
    (losses : list spec_float) (i : nat) (s' : t) :
  trace (__init__ p d) losses !! i = Some (s', true) ->
  p <= counter s' /\ 1 <= counter s' /\ counter s' <= Z.of_nat i.
Proof.
  intros Hi. apply trace_lookup in Hi as (v & Hv & Hr).
  pose proof (stop_reached_patience (run (__init__ p d) (take i losses)) v) as Hp.
  rewrite <- Hr in Hp. specialize (Hp eq_refl). cbn [fst] in Hp.
  rewrite (proj1 (run_config _ _)) in Hp. cbn [patience __init__] in Hp.
  assert (Hs' : s' = run (__init__ p d) (take i losses ++ [v])).
  { rewrite run_snoc, <- Hr. reflexivity. }
  pose proof (run_counter_from_init p d (take i losses ++ [v])) as Hc.
  rewrite <- Hs', length_app, length_take in Hc. simpl length in Hc.
  apply lookup_lt_Some in Hv.
  assert (Hpos : 1 <= counter s').
  { revert Hr. unfold early_stop.
    destruct (PyFloat.lt v _); [discriminate | ].
    destruct (PyFloat.gt v _); [ | discriminate].
    cbn [incr_counter counter patience].
    pose proof (proj1 (run_counter_from_init p d (take i losses))).
    destruct (_ >=? _); intros E; [ | discriminate E].
    injection E as E. rewrite E. simpl. lia. }
  lia.
Qed.

(** X3. A constructed monitor of patience [p] cannot answer stop early:
    when its call number [i + 1] answers [True], at least one call came
    before it and [p <= i]. *)
Theorem no_stop_before_patience (p : Z) (d : spec_float)
    (losses : list spec_float) (i : nat) (s' : t) :
  trace (__init__ p d) losses !! i = Some (s', true) ->
  (1 <= i)%nat /\ p <= Z.of_nat i.
Proof.
  intros Hi. destruct (stop_counter_bounds p d losses i s' Hi) as (Hp & Hone & Hle).
  split; lia.
Qed.

Lemma no_stop_before_patience_witness :
  (1 <= 3)%nat /\ 2 <= Z.of_nat 3.
Proof.
  apply (no_stop_before_patience 2 PyFloat.f0_0
           [PyFloat.f5_0; PyFloat.f4_0; PyFloat.f4_06; PyFloat.f4_2] 3
           (mk 2 PyFloat.f0_0 2 PyFloat.f4_0)).
  reflexivity.
Defined.

Lemma early_stop_no_improvement (s : t) (v : spec_float) :
  PyFloat.lt v (min_validation_loss s) = false ->
  min_validation_loss (fst (early_stop s v)) = min_validation_loss s /\
  counter (fst (early_stop s v))
    = counter s
      + (if PyFloat.gt v (PyFloat.add (min_validation_loss s) (min_delta s))
         then 1 else 0) /\
  snd (early_stop s v)
    = PyFloat.gt v (PyFloat.add (min_validation_loss s) (min_delta s))
      && (counter s + 1 >=? patience s).
Proof.
  intros Hlt. unfold early_stop. rewrite Hlt.
  destruct (PyFloat.gt v _); [ | simpl; repeat split; lia].
  cbn [incr_counter counter patience].
  destruct (counter s + 1 >=? patience s); simpl; repeat split; lia.
Qed.

(** X4. While no loss improves on [min_validation_loss], the monitor keeps
    it and counts exactly the losses above [min_validation_loss +
    min_delta]: a loss within the tolerance neither counts nor resets the
    counter, so the counted losses need not be consecutive. *)
Theorem counter_counts_losses_above_tolerance (s : t) (losses : list spec_float) :
  Forall (fun v => PyFloat.lt v (min_validation_loss s) = false) losses ->
  min_validation_loss (run s losses) = min_validation_loss s /\
  counter (run s losses)
    = counter s
      + Z.of_nat (length (List.filter
          (fun v => PyFloat.gt v (PyFloat.add (min_validation_loss s) (min_delta s)))
          losses)).
Proof.
  revert s. induction losses as [ | v rest IH]; intros s Hall; simpl run.
  - simpl. split; [reflexivity | lia].
  - apply Forall_cons in Hall as [Hv Hrest].
    destruct (early_stop_no_improvement s v Hv) as (Hb & Hc & _).
    destruct (early_stop_config s v) as [_ Hd].
    destruct (IH (fst (early_stop s v))) as [IHb IHc].
    { rewrite Hb. exact Hrest. }
    rewrite IHb, IHc, Hb, Hc, Hd. split; [reflexivity | ].
    cbn [List.filter].
    destruct (PyFloat.gt v _); [rewrite length_cons | ]; lia.
Qed.

Lemma counter_counts_losses_above_tolerance_witness :
  counter (run (mk 5 PyFloat.f0_05 0 PyFloat.f4_0)
             [PyFloat.f4_2; PyFloat.f4_0; PyFloat.f5_0])
  = 0 + Z.of_nat (length (List.filter
          (fun v => PyFloat.gt v (PyFloat.add PyFloat.f4_0 PyFloat.f0_05))
          [PyFloat.f4_2; PyFloat.f4_0; PyFloat.f5_0])).
Proof.
  apply (proj2 (counter_counts_losses_above_tolerance
                  (mk 5 PyFloat.f0_05 0 PyFloat.f4_0)
                  [PyFloat.f4_2; PyFloat.f4_0; PyFloat.f5_0]
                  ltac:(repeat constructor))).
Defined.

(** X5. A monitor whose counter has reached [patience] is not reset by a
    stop: as long as no loss improves on [min_validation_loss], it answers
    [True] to exactly the losses above [min_validation_loss + min_delta]. *)
Theorem tripped_monitor_keeps_stopping (s : t) (losses : list spec_float) :
  patience s <= counter s ->
  Forall (fun v => PyFloat.lt v (min_validation_loss s) = false) losses ->
  map snd (trace s losses)
  = map (fun v => PyFloat.gt v (PyFloat.add (min_validation_loss s) (min_delta s)))
      losses.
Proof.
  revert s. induction losses as [ | v rest IH]; intros s Hp Hall; [reflexivity | ].
  apply Forall_cons in Hall as [Hv Hrest].
  destruct (early_stop_no_improvement s v Hv) as (Hb & Hc & Hstop).
  destruct (early_stop_config s v) as [Hpat Hd].
  cbn [trace map]. rewrite Hstop. f_equal.
  - replace (counter s + 1 >=? patience s) with true by lia. apply andb_true_r.
  - rewrite IH.
    + rewrite Hb, Hd. reflexivity.
    + rewrite Hpat, Hc. destruct (PyFloat.gt v _); lia.
    + rewrite Hb. exact Hrest.
Qed.

Lemma tripped_monitor_keeps_stopping_witness :
  map snd (trace (mk 2 PyFloat.f0_05 2 PyFloat.f4_0)
             [PyFloat.f4_2; PyFloat.f4_0; PyFloat.f5_0])
  = [true; false; true].
Proof.
  rewrite (tripped_monitor_keeps_stopping (mk 2 PyFloat.f0_05 2 PyFloat.f4_0)
             [PyFloat.f4_2; PyFloat.f4_0; PyFloat.f5_0]).
  - reflexivity.
  - simpl. lia.
  - repeat constructor.
Defined.

End EarlyStopperMore.

(** ** Edge cases of the two trainers *)

Section TrainerMore.

Context {Nets Batch : Type} `{Collaborators Nets Batch}.

(** X6. With no batch in the training loader both trainers fail in their
    first epoch: once the torch objects are on the device and at least one
    epoch is asked for, [train] raises [ZeroDivisionError] (the mean of no
    loss), whatever the validation loader. *)
Theorem empty_training_loader_raises
    (self : @IC50BertTrainer.t Nets Batch) (plain : @PlainTrainer.t Nets Batch)
    (n1 n2 m1 m2 : Nets) :
  model_to (IC50BertTrainer.nets self) (IC50BertTrainer.device self) = Ok n1 ->
  criterion_to n1 (IC50BertTrainer.device self) = Ok n2 ->
  IC50BertTrainer.dataloader self = [] ->
  1 <= IC50BertTrainer.num_epochs self ->
  model_to (PlainTrainer.nets plain) PlainTrainer.pick_device = Ok m1 ->
  criterion_to m1 PlainTrainer.pick_device = Ok m2 ->
  PlainTrainer.dataloader plain = [] ->
  1 <= PlainTrainer.num_epochs plain ->
  IC50BertTrainer.train self = Raise ZeroDivisionError /\
  PlainTrainer.train plain = Raise ZeroDivisionError.
Proof.
  intros Hm Hc Hdl Hn Hpm Hpc Hpdl Hpn. split.
  - unfold IC50BertTrainer.train. rewrite Hm. cbn [mbind result_bind].
    rewrite Hc. cbn [mbind result_bind].
    destruct (Z.to_nat (IC50BertTrainer.num_epochs self)) as [ | n] eqn:En; [lia | ].
    cbn [IC50BertTrainer.epochs]. unfold IC50BertTrainer.epoch.
    cbn [IC50BertTrainer.dataloader IC50BertTrainer.with_state]. rewrite Hdl.
    reflexivity.
  - unfold PlainTrainer.train. rewrite Hpm. cbn [mbind result_bind].
    rewrite Hpc. cbn [mbind result_bind].
    destruct (Z.to_nat (PlainTrainer.num_epochs plain)) as [ | n] eqn:En; [lia | ].
    cbn [PlainTrainer.epochs PlainTrainer.dataloader]. rewrite Hpdl. reflexivity.
Qed.

(** X7. With [num_epochs <= 0] the loop body never runs: once the torch
    objects are on the device both trainers return empty lists, no loss is
    given to the monitor and the loaders are not read (an empty training
    loader is no error then). *)
Theorem no_epoch_returns_empty
    (self : @IC50BertTrainer.t Nets Batch) (plain : @PlainTrainer.t Nets Batch)
    (n1 n2 m1 m2 : Nets) :
  model_to (IC50BertTrainer.nets self) (IC50BertTrainer.device self) = Ok n1 ->
  criterion_to n1 (IC50BertTrainer.device self) = Ok n2 ->
  IC50BertTrainer.num_epochs self <= 0 ->
  model_to (PlainTrainer.nets plain) PlainTrainer.pick_device = Ok m1 ->
  criterion_to m1 PlainTrainer.pick_device = Ok m2 ->
  PlainTrainer.num_epochs plain <= 0 ->
  IC50BertTrainer.train self
    = Ok (IC50BertTrainer.mkRun (mkLosses [] [])
            (IC50BertTrainer.with_state self n2 (IC50BertTrainer.early_stopper self))
            []) /\
  PlainTrainer.train plain
    = Ok ([], PlainTrainer.mk m2 (PlainTrainer.dataloader plain)
                (PlainTrainer.num_epochs plain)).
Proof.
  intros Hm Hc Hn Hpm Hpc Hpn. split.
  - unfold IC50BertTrainer.train. rewrite Hm. cbn [mbind result_bind].
    rewrite Hc. cbn [mbind result_bind].
    replace (Z.to_nat (IC50BertTrainer.num_epochs self)) with 0%nat by lia.
    reflexivity.
  - unfold PlainTrainer.train. rewrite Hpm. cbn [mbind result_bind].
    rewrite Hpc. cbn [mbind result_bind].
    replace (Z.to_nat (PlainTrainer.num_epochs plain)) with 0%nat by lia.
    reflexivity.
Qed.

End TrainerMore.

Lemma empty_training_loader_raises_witness :
  IC50BertTrainer.train (H := Examples.stub true)
    (Examples.trainer [] (Some [PyFloat.f2_0]) 3 Cpu) = Raise ZeroDivisionError /\
  PlainTrainer.train (H := Examples.stub true) (Examples.plain_trainer [] 3)
    = Raise ZeroDivisionError.
Proof.
  apply (empty_training_loader_raises (H := Examples.stub true)
           (Examples.trainer [] (Some [PyFloat.f2_0]) 3 Cpu)
           (Examples.plain_trainer [] 3) 0%nat 0%nat 0%nat 0%nat);
    try reflexivity; simpl; lia.
Defined.

Lemma no_epoch_returns_empty_witness :
  IC50BertTrainer.train (H := Examples.stub true) (Examples.trainer [] None (-2) Cpu)
    = Ok (IC50BertTrainer.mkRun (mkLosses [] [])
            (Examples.trainer [] None (-2) Cpu) []) /\
  PlainTrainer.train (H := Examples.stub true) (Examples.plain_trainer [] 0)
    = Ok ([], Examples.plain_trainer [] 0).
Proof.
  apply (no_epoch_returns_empty (H := Examples.stub true)
           (Examples.trainer [] None (-2) Cpu) (Examples.plain_trainer [] 0)
           0%nat 0%nat 0%nat 0%nat); try reflexivity; simpl; lia.
Defined.

(** ** The plain trainer and how the two trainers agree *)

Section PlainFacts.

Context {Nets Batch : Type} `{Collaborators Nets Batch}.

Lemma plain_epochs_spec (n : nat) (d : torch_device)
    (self : @PlainTrainer.t Nets Batch) (avg : list spec_float) :
  PlainTrainer.dataloader self <> [] ->
  PlainTrainer.epochs n d self avg
  = Ok (avg ++ map (fun i => round4 (plain_loss_of d (PlainTrainer.dataloader self)
                                 (Nat.iter i (plain_after_epoch d (PlainTrainer.dataloader self))
                                    (PlainTrainer.nets self))))
                 (seq 0 n),
        PlainTrainer.mk
          (Nat.iter n (plain_after_epoch d (PlainTrainer.dataloader self))
             (PlainTrainer.nets self))
          (PlainTrainer.dataloader self) (PlainTrainer.num_epochs self)).
Proof.
  revert self avg. induction n as [ | n IH]; intros self avg Hdl.
  - simpl. rewrite app_nil_r. destruct self; reflexivity.
  - cbn [PlainTrainer.epochs]. rewrite train_batches_spec.
    rewrite (py_truediv_nonempty _ _ Hdl). cbn [mbind result_bind].
    rewrite IH by exact Hdl.
    cbn [PlainTrainer.nets PlainTrainer.dataloader PlainTrainer.num_epochs].
    rewrite map_seq_succ, <- app_assoc. cbn [app].
    f_equal. f_equal.
    + f_equal. f_equal.
      * unfold plain_loss_of, IC50BertTrainer.mean, IC50BertTrainer.total.
        now rewrite length_train_losses.
      * apply map_ext. intros i. now rewrite Nat.iter_succ_r.
    + f_equal. rewrite Nat.iter_succ_r. reflexivity.
Qed.

(** X8. The plain trainer has no early exit: once the torch objects are
    on the device it picked and the loader holds at least one batch, [train]
    returns exactly [num_epochs] entries (none when [num_epochs] is
    negative), entry [i] being the rounded mean of the per-batch losses of
    epoch [i], and leaves the torch objects as [num_epochs] whole epochs
    leave them. *)
Theorem plain_train_runs_every_epoch (self : @PlainTrainer.t Nets Batch)
    (n1 n2 : Nets) :
  model_to (PlainTrainer.nets self) PlainTrainer.pick_device = Ok n1 ->
  criterion_to n1 PlainTrainer.pick_device = Ok n2 ->
  PlainTrainer.dataloader self <> [] ->
  exists (losses : list spec_float) (after : PlainTrainer.t),
    PlainTrainer.train self = Ok (losses, after) /\
    length losses = Z.to_nat (PlainTrainer.num_epochs self) /\
    (forall i, (i < Z.to_nat (PlainTrainer.num_epochs self))%nat ->
       losses !! i
       = Some (round4 (plain_loss_of PlainTrainer.pick_device (PlainTrainer.dataloader self)
                  (Nat.iter i (plain_after_epoch PlainTrainer.pick_device
                                 (PlainTrainer.dataloader self)) n2)))) /\
    PlainTrainer.nets after
    = Nat.iter (Z.to_nat (PlainTrainer.num_epochs self))
        (plain_after_epoch PlainTrainer.pick_device (PlainTrainer.dataloader self)) n2 /\
    PlainTrainer.dataloader after = PlainTrainer.dataloader self /\
    PlainTrainer.num_epochs after = PlainTrainer.num_epochs self.
Proof.
  intros Hm Hc Hdl. unfold PlainTrainer.train. rewrite Hm. cbn [mbind result_bind].
  rewrite Hc. cbn [mbind result_bind].
  rewrite plain_epochs_spec by exact Hdl.
  cbn [PlainTrainer.nets PlainTrainer.dataloader PlainTrainer.num_epochs app].
  eexists _, _. split; [reflexivity | ].
  split; [now rewrite length_map, length_seq | ].
  split; [ | repeat split].
  intros i Hi. change (map ?f ?l) with (f <$> l).
  rewrite list_lookup_fmap, lookup_seq_lt by exact Hi. reflexivity.
Qed.

Lemma start_of_plain (self : @IC50BertTrainer.t Nets Batch) (nets0 : Nets) (i : nat) :
  truthy (IC50BertTrainer.val_dataloader self) = false ->
  IC50BertTrainer.start_of self nets0 i
  = Nat.iter i (plain_after_epoch (IC50BertTrainer.device self)
                  (IC50BertTrainer.dataloader self)) nets0.
Proof.
  intros Hval. unfold IC50BertTrainer.start_of.
  induction i as [ | i IH]; [reflexivity | ].
  rewrite !Nat.iter_succ, IH. unfold IC50BertTrainer.after_epoch. rewrite Hval.
  reflexivity.
Qed.

(** X9. The two trainers agree where they overlap: on the same torch
    objects, loader, number of epochs and device, the validation-aware
    trainer without a usable validation loader, when its monitor never
    answers stop, returns as training losses exactly the list the plain
    trainer returns, and leaves the torch objects in the same state. *)
Theorem trainers_agree_without_validation
    (self : @IC50BertTrainer.t Nets Batch) (plain : @PlainTrainer.t Nets Batch)
    (n1 n2 : Nets) :
  IC50BertTrainer.nets self = PlainTrainer.nets plain ->
  IC50BertTrainer.dataloader self = PlainTrainer.dataloader plain ->
  IC50BertTrainer.num_epochs self = PlainTrainer.num_epochs plain ->
  IC50BertTrainer.device self = PlainTrainer.pick_device ->
  truthy (IC50BertTrainer.val_dataloader self) = false ->
  model_to (IC50BertTrainer.nets self) (IC50BertTrainer.device self) = Ok n1 ->
  criterion_to n1 (IC50BertTrainer.device self) = Ok n2 ->
  IC50BertTrainer.dataloader self <> [] ->
  Forall (eq false)
    (IC50BertTrainer.answers self n2 (Z.to_nat (IC50BertTrainer.num_epochs self))) ->
  exists (r : IC50BertTrainer.run) (losses : list spec_float) (after : PlainTrainer.t),
    IC50BertTrainer.train self = Ok r /\
    PlainTrainer.train plain = Ok (losses, after) /\
    Train (IC50BertTrainer.avg_episode_losses r) = losses /\
    Validation (IC50BertTrainer.avg_episode_losses r) = [] /\
    IC50BertTrainer.nets (IC50BertTrainer.self_after r) = PlainTrainer.nets after.
Proof.
  intros Hnets Hdl Hn Hd Hval Hm Hc Hne Hno.
  rewrite (train_spec self n1 n2 Hm Hc Hne).
  rewrite (completed_no_stop _ Hno), length_answers.
  unfold PlainTrainer.train. rewrite <- Hnets, <- Hd, Hm. cbn [mbind result_bind].
  rewrite Hc. cbn [mbind result_bind].
  rewrite plain_epochs_spec by (cbn [PlainTrainer.dataloader]; congruence).
  cbn [PlainTrainer.nets PlainTrainer.dataloader PlainTrainer.num_epochs app].
  eexists _, _, _. split; [reflexivity | ]. split; [reflexivity | ].
  unfold IC50BertTrainer.recorded.
  cbn [IC50BertTrainer.avg_episode_losses IC50BertTrainer.self_after Train Validation
       IC50BertTrainer.nets IC50BertTrainer.with_state PlainTrainer.nets app].
  rewrite Hval, <- Hdl, <- Hn. split; [ | split; [reflexivity | ]].
  - apply map_ext. intros i. rewrite (start_of_plain self n2 i Hval).
    reflexivity.
  - apply start_of_plain, Hval.
Qed.

End PlainFacts.

Lemma plain_train_runs_every_epoch_witness :
  exists (losses : list spec_float) (after : PlainTrainer.t),
    PlainTrainer.train (H := Examples.stub true)
      (Examples.plain_trainer [PyFloat.f3_0; PyFloat.f1_0] 3) = Ok (losses, after) /\
    losses = [S754_finite false 5629499534213120 (-51);
              S754_finite false 5066549580791808 (-50);
              S754_finite false 7318349394477056 (-50)] /\
    PlainTrainer.nets after = 6%nat.
Proof.
  destruct (plain_train_runs_every_epoch (H := Examples.stub true)
              (Examples.plain_trainer [PyFloat.f3_0; PyFloat.f1_0] 3)
              0%nat 0%nat eq_refl eq_refl ltac:(discriminate))
    as (losses & after & Hrun & _).
  exists losses, after. split; [exact Hrun | ].
  vm_compute in Hrun. injection Hrun as <- <-. split; reflexivity.
Defined.

Lemma trainers_agree_without_validation_witness :
  exists (r : IC50BertTrainer.run) (losses : list spec_float) (after : PlainTrainer.t),
    IC50BertTrainer.train (H := Examples.stub true)
      (Examples.trainer [PyFloat.f3_0; PyFloat.f1_0] (Some []) 3 Cuda) = Ok r /\
    PlainTrainer.train (H := Examples.stub true)
      (Examples.plain_trainer [PyFloat.f3_0; PyFloat.f1_0] 3) = Ok (losses, after) /\
    Train (IC50BertTrainer.avg_episode_losses r) = losses /\
    Validation (IC50BertTrainer.avg_episode_losses r) = [] /\
    IC50BertTrainer.nets (IC50BertTrainer.self_after r) = PlainTrainer.nets after.
Proof.
  apply (trainers_agree_without_validation (H := Examples.stub true)
           (Examples.trainer [PyFloat.f3_0; PyFloat.f1_0] (Some []) 3 Cuda)
           (Examples.plain_trainer [PyFloat.f3_0; PyFloat.f1_0] 3) 0%nat 0%nat);
    try reflexivity; try discriminate.
  vm_compute. repeat constructor.
Defined.

(** ** The monitor inside the trainer *)

Section MonitorInTrainer.

Context {Nets Batch : Type} `{Collaborators Nets Batch}.

Import IC50BertTrainer.

Lemma completed_lower (stops : list bool) (k : nat) :
  (forall i, (i < k)%nat -> stops !! i <> Some true) ->
  (Nat.min (length stops) (S k) <= completed stops)%nat.
Proof.
  revert k. induction stops as [ | b rest IH]; intros k Hk; [simpl; lia | ].
  destruct b.
  - destruct k as [ | k]; [simpl; lia | ].
    exfalso. apply (Hk 0%nat); [lia | reflexivity].
  - cbn [completed]. destruct k as [ | k]; [simpl; lia | ].
    specialize (IH k). rewrite length_cons.
    assert (Hrest : forall i, (i < k)%nat -> rest !! i <> Some true).
    { intros i Hi. apply (Hk (S i)). lia. }
    specialize (IH Hrest). lia.
Qed.

Lemma answers_stop (self : @t Nets Batch) (nets0 : Nets) (n i : nat) :
  answers self nets0 n !! i = Some true ->
  exists s', EarlyStopper.trace (early_stopper self) (stop_stream self nets0 n) !! i
             = Some (s', true).
Proof.
  unfold answers. change (map snd ?l) with (snd <$> l).
  rewrite list_lookup_fmap. intros Hi.
  destruct (EarlyStopper.trace _ _ !! i) as [[s' b] | ]; [ | discriminate].
  simpl in Hi. injection Hi as ->. eauto.
Qed.

(** X10. A trainer whose monitor is freshly constructed with patience [p]
    cannot be stopped before epoch [max(p, 1) + 1]: with the torch objects
    on the device and a non-empty training loader, [train] returns at least
    [min(num_epochs, max(p, 1) + 1)] training entries.  For the monitor
    [__init__] builds (patience 10) that is at least [min(num_epochs, 11)]
    epochs. *)
Theorem fresh_monitor_lets_first_epochs_run (self : @t Nets Batch) (n1 n2 : Nets)
    (p : Z) (d : spec_float) :
  early_stopper self = EarlyStopper.__init__ p d ->
  model_to (nets self) (device self) = Ok n1 ->
  criterion_to n1 (device self) = Ok n2 ->
  dataloader self <> [] ->
  exists r : run,
    train self = Ok r /\
    Z.min (num_epochs self) (Z.max p 1 + 1)
      <= Z.of_nat (length (Train (avg_episode_losses r))).
Proof.
  intros Hes Hm Hc Hdl. rewrite (train_spec self n1 n2 Hm Hc Hdl).
  eexists. split; [reflexivity | ].
  destruct (recorded_lengths self n2
              (completed (answers self n2 (Z.to_nat (num_epochs self)))))
    as (-> & _ & _).
  pose proof (completed_lower (answers self n2 (Z.to_nat (num_epochs self)))
                (Z.to_nat (Z.max p 1))) as Hlow.
  rewrite length_answers in Hlow.
  assert (Hbefore : forall i, (i < Z.to_nat (Z.max p 1))%nat ->
            answers self n2 (Z.to_nat (num_epochs self)) !! i <> Some true).
  { intros i Hi Htrue. apply answers_stop in Htrue as [s' Hs'].
    rewrite Hes in Hs'.
    destruct (stop_counter_bounds p d _ i s' Hs') as (Hp & Hone & Hle). lia. }
  specialize (Hlow Hbefore). lia.
Qed.

Lemma epochs_monitor (n : nat) (self : @t Nets Batch) (avg : episode_losses)
    (log : list spec_float) (r : run) :
  epochs n self avg log = Ok r ->
  exists new : list spec_float,
    fed r = log ++ new /\
    early_stopper (self_after r) = EarlyStopper.run (early_stopper self) new /\
    dataloader (self_after r) = dataloader self /\
    val_dataloader (self_after r) = val_dataloader self /\
    num_epochs (self_after r) = num_epochs self /\
    device (self_after r) = device self.
Proof.
  revert self avg log. induction n as [ | n IH]; intros self avg log Hr.
  - injection Hr as <-. exists []. rewrite app_nil_r. repeat split.
  - cbn [epochs] in Hr.
    destruct (epoch self avg) as [[[nets' avg'] stop_loss] | e]; [ | discriminate].
    cbn [mbind result_bind] in Hr.
    destruct (EarlyStopper.early_stop (early_stopper self) stop_loss)
      as [es' stop] eqn:Hes.
    destruct stop.
    + injection Hr as <-. exists [stop_loss]. cbn. rewrite Hes. repeat split.
    + apply IH in Hr as (new & Hfed & Hmon & Hd & Hv & Hn & Hdev).
      exists (stop_loss :: new). rewrite Hfed, <- app_assoc.
      cbn [app EarlyStopper.run]. rewrite Hes. cbn [fst].
      repeat split; assumption.
Qed.

(** X11. [train] neither resets nor replaces the monitor: after a call
    that returns, the object's monitor is the monitor it had before the call
    advanced by the losses it was given during the call, and the loaders,
    [num_epochs] and the device of the object are unchanged. *)
Theorem train_keeps_the_monitor (self : @t Nets Batch) (r : run) :
  train self = Ok r ->
  early_stopper (self_after r) = EarlyStopper.run (early_stopper self) (fed r) /\
  dataloader (self_after r) = dataloader self /\
  val_dataloader (self_after r) = val_dataloader self /\
  num_epochs (self_after r) = num_epochs self /\
  device (self_after r) = device self.
Proof.
  unfold train. intros Hr.
  destruct (model_to (nets self) (device self)) as [n1 | e]; [ | discriminate].
  cbn [mbind result_bind] in Hr.
  destruct (criterion_to n1 (device self)) as [n2 | e]; [ | discriminate].
  cbn [mbind result_bind] in Hr.
  apply epochs_monitor in Hr as (new & Hfed & Hrest).
  cbn [app] in Hfed. rewrite Hfed. exact Hrest.
Qed.

End MonitorInTrainer.

Lemma fresh_monitor_lets_first_epochs_run_witness :
  exists r : IC50BertTrainer.run,
    IC50BertTrainer.train (H := Examples.stub true)
      (Examples.trainer [PyFloat.f3_0; PyFloat.f1_0] None 20 Cpu) = Ok r /\
    Z.min 20 (Z.max 10 1 + 1)
      <= Z.of_nat (length (Train (IC50BertTrainer.avg_episode_losses r))).
Proof.
  apply (fresh_monitor_lets_first_epochs_run (H := Examples.stub true)
           (Examples.trainer [PyFloat.f3_0; PyFloat.f1_0] None 20 Cpu)
           0%nat 0%nat 10 PyFloat.f0_05); try reflexivity. discriminate.
Defined.

Lemma train_keeps_the_monitor_witness :
  EarlyStopper.counter
    (IC50BertTrainer.early_stopper
       (IC50BertTrainer.self_after
          (IC50BertTrainer.recorded (H := Examples.stub true)
             (Examples.trainer [PyFloat.f3_0; PyFloat.f1_0] None 3 Cpu)
             0%nat (mkLosses [] []) [] 3))) = 2.
Proof.
  rewrite (proj1 (train_keeps_the_monitor (H := Examples.stub true)
                    (Examples.trainer [PyFloat.f3_0; PyFloat.f1_0] None 3 Cpu)
                    (IC50BertTrainer.recorded (H := Examples.stub true)
                       (Examples.trainer [PyFloat.f3_0; PyFloat.f1_0] None 3 Cpu)
                       0%nat (mkLosses [] []) [] 3)
                    ltac:(vm_compute; reflexivity))).
  vm_compute. reflexivity.
Defined.

(** ** A second call of [train] *)

Section SecondRun.

Context {Nets Batch : Type} `{Collaborators Nets Batch}.

Import IC50BertTrainer.

Lemma completed_short (stops : list bool) :
  (completed stops < length stops)%nat ->
  exists j, completed stops = S j /\ stops !! j = Some true.
Proof.
  induction stops as [ | b rest IH]; simpl; [lia | ].
  destruct b; intros Hlt.
  - exists 0%nat. split; reflexivity.
  - destruct IH as (j & Hj & Htrue); [lia | ].
    exists (S j). split; [now rewrite Hj | exact Htrue].
Qed.

Lemma stop_stream_take (self : @t Nets Batch) (nets0 : Nets) (j n : nat) :
  (j <= n)%nat ->
  stop_stream self nets0 j = take j (stop_stream self nets0 n).
Proof.
  intros Hj. rewrite (stop_stream_split self nets0 j n Hj).
  assert (Hlen : length (stop_stream self nets0 j) = j).
  { unfold stop_stream. now rewrite length_map, length_seq. }
  rewrite <- Hlen at 2. now rewrite take_app_length.
Qed.

(** X12. A run that the monitor cut short leaves it tripped: with the
    torch objects on the device and a non-empty training loader, when
    [train] returns fewer training entries than [num_epochs], the counter of
    the object's monitor has reached its patience. *)
Theorem early_stopped_run_leaves_tripped_monitor (self : @t Nets Batch)
    (n1 n2 : Nets) :
  model_to (nets self) (device self) = Ok n1 ->
  criterion_to n1 (device self) = Ok n2 ->
  dataloader self <> [] ->
  exists r : run,
    train self = Ok r /\
    (Z.of_nat (length (Train (avg_episode_losses r))) < num_epochs self ->
     EarlyStopper.patience (early_stopper (self_after r))
       <= EarlyStopper.counter (early_stopper (self_after r))).
Proof.
  intros Hm Hc Hdl. rewrite (train_spec self n1 n2 Hm Hc Hdl).
  eexists. split; [reflexivity | ].
  set (N := Z.to_nat (num_epochs self)).
  destruct (recorded_lengths self n2 (completed (answers self n2 N))) as (-> & _ & _).
  intros Hshort.
  destruct (completed_short (answers self n2 N)) as (j & Hj & Htrue).
  { rewrite length_answers. lia. }
  rewrite Hj. unfold recorded. cbn [self_after early_stopper with_state].
  pose proof (lookup_lt_Some _ _ _ Htrue) as HjN. rewrite length_answers in HjN.
  apply answers_stop in Htrue as [s' Hs'].
  apply trace_lookup in Hs' as (v & Hv & Hstop).
  rewrite (stop_stream_take self n2 (S j) N) by lia.
  rewrite (take_S_r _ _ _ Hv), run_snoc.
  pose proof (stop_reached_patience
                (EarlyStopper.run (early_stopper self) (take j (stop_stream self n2 N))) v)
    as Hp.
  rewrite <- Hstop in Hp. specialize (Hp eq_refl).
  rewrite (proj1 (early_stop_config _ v)). rewrite <- Hstop in *. exact Hp.
Qed.

(** X13. A trainer whose monitor is already tripped (counter at or beyond
    its patience, as an earlier early-stopped run leaves it), or one short
    of it, gives no second chance: when the monitored loss of the first
    epoch is no improvement and lies above [min_validation_loss +
    min_delta], [train] returns after that single epoch. *)
Theorem tripped_trainer_stops_after_one_epoch (self : @t Nets Batch)
    (n1 n2 : Nets) :
  model_to (nets self) (device self) = Ok n1 ->
  criterion_to n1 (device self) = Ok n2 ->
  dataloader self <> [] ->
  1 <= num_epochs self ->
  EarlyStopper.patience (early_stopper self)
    <= EarlyStopper.counter (early_stopper self) + 1 ->
  PyFloat.lt (stop_loss_of self n2)
    (EarlyStopper.min_validation_loss (early_stopper self)) = false ->
  PyFloat.gt (stop_loss_of self n2)
    (PyFloat.add (EarlyStopper.min_validation_loss (early_stopper self))
       (EarlyStopper.min_delta (early_stopper self))) = true ->
  exists r : run,
    train self = Ok r /\
    length (Train (avg_episode_losses r)) = 1%nat /\
    fed r = [stop_loss_of self n2] /\
    nets (self_after r) = after_epoch self n2.
Proof.
  intros Hm Hc Hdl Hn Hp Hlt Hgt. rewrite (train_spec self n1 n2 Hm Hc Hdl).
  destruct (Z.to_nat (num_epochs self)) as [ | n] eqn:En; [lia | ].
  unfold answers. rewrite stop_stream_succ. cbn [EarlyStopper.trace map].
  destruct (early_stop_no_improvement (early_stopper self) (stop_loss_of self n2) Hlt)
    as (_ & _ & Hstop).
  rewrite Hstop, Hgt.
  replace (EarlyStopper.counter (early_stopper self) + 1
             >=? EarlyStopper.patience (early_stopper self)) with true by lia.
  cbn [andb completed]. eexists. split; [reflexivity | ].
  unfold recorded. cbn. repeat split.
Qed.

End SecondRun.

Lemma early_stopped_run_leaves_tripped_monitor_witness :
  exists r : IC50BertTrainer.run,
    IC50BertTrainer.train (H := Examples.stub true)
      (Examples.trainer [PyFloat.f3_0; PyFloat.f1_0] None 20 Cpu) = Ok r /\
    (Z.of_nat (length (Train (IC50BertTrainer.avg_episode_losses r))) < 20 ->
     EarlyStopper.patience (IC50BertTrainer.early_stopper (IC50BertTrainer.self_after r))
       <= EarlyStopper.counter
            (IC50BertTrainer.early_stopper (IC50BertTrainer.self_after r))).
Proof.
  apply (early_stopped_run_leaves_tripped_monitor (H := Examples.stub true)
           (Examples.trainer [PyFloat.f3_0; PyFloat.f1_0] None 20 Cpu) 0%nat 0%nat);
    try reflexivity. discriminate.
Defined.

Lemma tripped_trainer_stops_after_one_epoch_witness :
  exists r : IC50BertTrainer.run,
    IC50BertTrainer.train (H := Examples.stub true)
      (IC50BertTrainer.mk 22%nat [PyFloat.f3_0; PyFloat.f1_0] None 20 Cpu
         (EarlyStopper.mk 10 PyFloat.f0_05 10
            (S754_finite false 5629499534213120 (-51)))) = Ok r /\
    length (Train (IC50BertTrainer.avg_episode_losses r)) = 1%nat /\
    IC50BertTrainer.fed r = [S754_finite false 6896136929411072 (-48)] /\
    IC50BertTrainer.nets (IC50BertTrainer.self_after r) = 24%nat.
Proof.
  apply (tripped_trainer_stops_after_one_epoch (H := Examples.stub true)
           (IC50BertTrainer.mk 22%nat [PyFloat.f3_0; PyFloat.f1_0] None 20 Cpu
              (EarlyStopper.mk 10 PyFloat.f0_05 10
                 (S754_finite false 5629499534213120 (-51))))
           22%nat 22%nat); try reflexivity; try discriminate; simpl; lia.
Defined.

(** ** Reading a batch *)

Section BatchFacts.

Variable tensor_to : Tensor -> torch_device -> result Tensor.

Lemma batch_getitem_ok (batch : gmap string Tensor) (key : string) :
  is_ok (batch_getitem batch key) = true <-> is_Some (batch !! key).
Proof.
  unfold batch_getitem. destruct (batch !! key); simpl; split;
    try reflexivity; try discriminate; eauto.
  intros [x Hx]. discriminate.
Qed.

(** X14. With tensor moves that succeed, [get_from_batch] returns exactly
    when the batch holds the four keys [input_ids], [token_type_ids],
    [attention_mask] and [labels], and raises [KeyError] when one of them is
    missing; any other key of the batch is ignored. *)
Theorem get_from_batch_needs_four_keys (d : torch_device)
    (batch : gmap string Tensor) :
  (forall t, is_ok (tensor_to t d) = true) ->
  (is_ok (get_from_batch tensor_to d batch) = true <->
     is_Some (batch !! "input_ids") /\ is_Some (batch !! "token_type_ids") /\
     is_Some (batch !! "attention_mask") /\ is_Some (batch !! "labels")) /\
  (is_ok (get_from_batch tensor_to d batch) = false ->
     get_from_batch tensor_to d batch = Raise KeyError).
Proof.
  intros Hto. unfold get_from_batch, batch_getitem.
  assert (Hmove : forall t, exists t', tensor_to t d = Ok t').
  { intros t. specialize (Hto t). destruct (tensor_to t d); [eauto | discriminate]. }
  destruct (batch !! "input_ids") as [a | ]; cbn [mbind result_bind];
    [ | split; [split; [discriminate | intros ([? ?] & _); discriminate] | reflexivity]].
  destruct (Hmove a) as [a' ->]; cbn [mbind result_bind].
  destruct (batch !! "token_type_ids") as [b | ]; cbn [mbind result_bind];
    [ | split; [split; [discriminate | intros (_ & [? ?] & _); discriminate] | reflexivity]].
  destruct (Hmove b) as [b' ->]; cbn [mbind result_bind].
  destruct (batch !! "attention_mask") as [c | ]; cbn [mbind result_bind];
    [ | split; [split; [discriminate | intros (_ & _ & [? ?] & _); discriminate]
              | reflexivity]].
  destruct (Hmove (to_bool c)) as [c' ->]; cbn [mbind result_bind].
  destruct (batch !! "labels") as [l | ]; cbn [mbind result_bind];
    [ | split; [split; [discriminate | intros (_ & _ & _ & [? ?]); discriminate]
              | reflexivity]].
  destruct (Hmove l) as [l' ->]; cbn [mbind result_bind].
  split; [ | discriminate]. split; [ | reflexivity].
  intros _. repeat split; eauto.
Qed.



End BatchFacts.

Lemma get_from_batch_needs_four_keys_witness :
  get_from_batch (fun t _ => Ok t) Cpu
    (<["input_ids" := Tensor2 [[101; 102]]]>
       (<["attention_mask" := Tensor2 [[1; 1]]]> (<["labels" := Tensor1 [VInt 10]]> ∅)))
  = Raise KeyError.
Proof.
  apply (proj2 (get_from_batch_needs_four_keys (fun t _ => Ok t) Cpu
                  (<["input_ids" := Tensor2 [[101; 102]]]>
                     (<["attention_mask" := Tensor2 [[1; 1]]]>
                        (<["labels" := Tensor1 [VInt 10]]> ∅)))
                  ltac:(reflexivity))).
  reflexivity.
Defined.


(** ** More on record projection *)

Section DatasetMore.

Import ProteinSMILESDataset.

(** The three column labels [__getitem__] reads. *)
Lemma getitem_of_row (self : t) (i : Z) (row : gmap string pyval) :
  DataFrame.iloc (df self) i = Ok row ->
  __getitem__ self i
  = (ligand ← DataFrame.getitem row "Ligand SMILES";
     protein ← DataFrame.getitem row "BindingDB Target Chain Sequence";
     target_ic50 ← DataFrame.getitem row "IC50 (nM)";
     Ok (mkProteinData ligand protein target_ic50)).
Proof. intros Hrow. unfold __getitem__. rewrite Hrow. reflexivity. Qed.

Lemma iloc_ok_iff (df : list (gmap string pyval)) (i : Z) :
  is_ok (DataFrame.iloc df i) = true <-> - DataFrame.len df <= i < DataFrame.len df.
Proof.
  split.
  - intros Hok.
    destruct (Z_lt_ge_dec i (- DataFrame.len df)) as [Hlow | Hlow];
      [rewrite iloc_out_of_range in Hok by lia; discriminate | ].
    destruct (Z_lt_ge_dec i (DataFrame.len df)) as [Hhigh | Hhigh]; [lia | ].
    rewrite iloc_out_of_range in Hok by lia. discriminate.
  - intros Hi. destruct (Z_lt_ge_dec i 0) as [Hneg | Hpos].
    + rewrite iloc_negative by lia.
      destruct (iloc_in_range df (i + DataFrame.len df)) as (row & _ & ->); [lia | ].
      reflexivity.
    + destruct (iloc_in_range df i) as (row & _ & ->); [lia | ]. reflexivity.
Qed.

(** X16. On a table without rows [__len__] is 0 and [__getitem__] raises
    [IndexError] at every position, negative ones included. *)
Theorem empty_table_has_no_record (i : Z) :
  __len__ (mk []) = 0 /\ __getitem__ (mk []) i = Raise IndexError.
Proof.
  split; [reflexivity | ].
  unfold __getitem__. rewrite iloc_out_of_range; [reflexivity | ].
  unfold DataFrame.len. simpl. lia.
Qed.

(** X17. On a table whose every row holds the three column labels,
    [__getitem__] returns a record exactly at the positions of
    [-N, N), [N] being [__len__]: no position in that range fails and no
    position outside it succeeds. *)
Theorem complete_table_projects_every_row (self : t) (i : Z) :
  Forall (fun row => is_Some (row !! "Ligand SMILES") /\
                     is_Some (row !! "BindingDB Target Chain Sequence") /\
                     is_Some (row !! "IC50 (nM)")) (df self) ->
  (is_ok (__getitem__ self i) = true <-> - __len__ self <= i < __len__ self).
Proof.
  intros Hcols. unfold __len__. rewrite <- iloc_ok_iff.
  destruct (DataFrame.iloc (df self) i) as [row | e] eqn:Hrow.
  - rewrite (getitem_of_row self i row Hrow). simpl. split; [reflexivity | intros _].
    assert (Hin : row ∈ df self).
    { unfold DataFrame.iloc in Hrow.
      destruct (_ || _); [discriminate | ].
      destruct (df self !! _) as [row' | ] eqn:Hl; [ | discriminate].
      injection Hrow as <-. eapply list_elem_of_lookup_2, Hl. }
    rewrite Forall_forall in Hcols.
    destruct (Hcols row Hin) as ([l Hl] & [p Hp] & [c Hc]).
    unfold DataFrame.getitem. rewrite Hl, Hp, Hc. reflexivity.
  - unfold __getitem__. rewrite Hrow. simpl. split; discriminate.
Qed.

(** X18. [__getitem__] reads nothing but the three labelled cells of the
    row: two tables of the same length whose rows agree, position by
    position, on these three labels give the same result at every position,
    whatever their other columns hold. *)
Theorem getitem_reads_three_columns (df1 df2 : list (gmap string pyval)) (i : Z) :
  Forall2 (fun r1 r2 : gmap string pyval =>
             r1 !! "Ligand SMILES" = r2 !! "Ligand SMILES" /\
             r1 !! "BindingDB Target Chain Sequence"
               = r2 !! "BindingDB Target Chain Sequence" /\
             r1 !! "IC50 (nM)" = r2 !! "IC50 (nM)") df1 df2 ->
  __getitem__ (mk df1) i = __getitem__ (mk df2) i.
Proof.
  intros Hrows. pose proof (Forall2_length _ _ _ Hrows) as Hlen.
  unfold __getitem__, DataFrame.iloc, DataFrame.len. cbn [df]. rewrite Hlen.
  destruct (_ || _); [reflexivity | ].
  set (pos := Z.to_nat _).
  destruct (df1 !! pos) as [r1 | ] eqn:H1.
  - destruct (Forall2_lookup_l _ _ _ _ _ Hrows H1) as (r2 & H2 & Hl & Hp & Hc).
    rewrite H2. cbn [mbind result_bind]. unfold DataFrame.getitem.
    rewrite Hl, Hp, Hc. reflexivity.
  - assert (H2 : df2 !! pos = None).
    { apply lookup_ge_None. apply lookup_ge_None in H1. lia. }
    rewrite H2. reflexivity.
Qed.

End DatasetMore.

Lemma complete_table_projects_every_row_witness :
  is_ok (ProteinSMILESDataset.__getitem__ (ProteinSMILESDataset.mk Examples.table) (-2))
    = true.
Proof.
  apply (complete_table_projects_every_row
           (ProteinSMILESDataset.mk Examples.table) (-2)).
  - repeat constructor; eexists; reflexivity.
  - unfold ProteinSMILESDataset.__len__, DataFrame.len. simpl. lia.
Defined.

Lemma getitem_reads_three_columns_witness :
  ProteinSMILESDataset.__getitem__
    (ProteinSMILESDataset.mk [<["Ki (nM)" := VInt 7]> (Examples.row "C" "MK" 20)]) 0
  = ProteinSMILESDataset.__getitem__
      (ProteinSMILESDataset.mk [Examples.row "C" "MK" 20]) 0.
Proof.
  apply (getitem_reads_three_columns
           [<["Ki (nM)" := VInt 7]> (Examples.row "C" "MK" 20)]
           [Examples.row "C" "MK" 20] 0).
  repeat constructor.
Defined.
